(** * event_manager: hypermedia links, login/registration handlers, mail dispatch

    A shallow embedding of
      - [app/utils/link_generation.py]  (module [LinkGeneration]),
      - [app/routers/user_routes.py]    (module [UserRoutes], the
        [register] and [login] handlers),
      - [app/utils/smtp_connection.py]  (module [SmtpConnection],
        [SMTPClient.send_email]),
    together with the properties the specification states about them.

    Python integers are unbounded, so they are [Z]; [//] is floor division,
    which is [Z.div].  Python [dict]s keep insertion order, and the order is
    observable here (the query string is joined in iteration order), so a
    dict is an association list with Python's update discipline. *)

From Stdlib Require Import ZArith String Ascii List Lia Bool DecimalString.
Import ListNotations.

#[local] Open Scope string_scope.
#[local] Open Scope Z_scope.

(* ===================================================================== *)
(** * Python values and dictionaries *)
(* ===================================================================== *)

Module Py.

(** The values that travel through query parameters and token claims. *)
Inductive value : Type :=
| Int (z : Z)
| Str (s : string).

(** [str(n)] for an integer: decimal digits, a leading [-] when negative. *)
Definition str_of_int (z : Z) : string :=
  NilZero.string_of_int (Z.to_int z).

(** [str(v)], which is what an f-string placeholder [{v}] inserts. *)
Definition str (v : value) : string :=
  match v with
  | Int z => str_of_int z
  | Str s => s
  end.

(** A dict with string keys: the items in insertion order. *)
Definition dict (V : Type) : Type := list (string * V).

Section Dict.
Context {V : Type}.

(** [d.get(k)]: [None] when the key is absent. *)
Fixpoint get (k : string) (d : dict V) : option V :=
  match d with
  | [] => None
  | (k', v) :: d' => if String.eqb k k' then Some v else get k d'
  end.

(** [k in d]. *)
Definition mem (k : string) (d : dict V) : bool :=
  match get k d with
  | Some _ => true
  | None => false
  end.

(** [d[k] = v]: an existing key keeps its position and takes the new
    value; a new key goes to the end. *)
Fixpoint set (d : dict V) (k : string) (v : V) : dict V :=
  match d with
  | [] => [(k, v)]
  | (k', v') :: d' =>
      if String.eqb k k' then (k', v) :: d' else (k', v') :: set d' k v
  end.

(** [d.update(other)]: assigns the items of [other] in their order. *)
Definition update (d other : dict V) : dict V :=
  fold_left (fun acc kv => set acc (fst kv) (snd kv)) other d.

(** [d.keys()], in iteration order. *)
Definition keys (d : dict V) : list string := map fst d.

End Dict.

(** Truthiness of an optional dict argument ([if filters:]): [None] and the
    empty dict are both false. *)
Definition truthy_dict {V} (d : option (dict V)) : bool :=
  match d with
  | Some (_ :: _) => true
  | _ => false
  end.

End Py.

(* ===================================================================== *)
(** * Reading a link the way a client does *)
(* ===================================================================== *)

(** These functions are not part of the program: they say what "the query
    string", "a parameter name" and "the value of parameter [skip]" of an
    href are, so that the properties below can speak about them. *)
Module Url.

(** [s.split(c)]: the pieces of [s] between occurrences of [c]. *)
Fixpoint split (c : ascii) (s : string) : list string :=
  match s with
  | EmptyString => [EmptyString]
  | String a s' =>
      if Ascii.eqb a c then EmptyString :: split c s'
      else match split c s' with
           | h :: t => String a h :: t
           | [] => [String a EmptyString]
           end
  end.

(** [s.partition(c)]: the text before the first [c], and the text after it
    when there is a [c]. *)
Fixpoint partition (c : ascii) (s : string) : string * option string :=
  match s with
  | EmptyString => (EmptyString, None)
  | String a s' =>
      if Ascii.eqb a c then (EmptyString, Some s')
      else let (h, t) := partition c s' in (String a h, t)
  end.

(** Does [c] occur in [s]? *)
Fixpoint occurs (c : ascii) (s : string) : bool :=
  match s with
  | EmptyString => false
  | String a s' => Ascii.eqb a c || occurs c s'
  end.

(** Is [c] one of the characters [str(n)] is made of? *)
Definition decimal_char (c : ascii) : bool :=
  occurs c "-0123456789".

(** The query string of an href: what follows the first [?]. *)
Definition query (href : string) : option string :=
  snd (partition "?" href).

(** The [name=value] pairs of a query string, in order. *)
Definition pairs (q : string) : list (string * string) :=
  map (fun p => let (n, v) := partition "=" p in
                (n, match v with Some v => v | None => EmptyString end))
      (split "&" q).

(** The parameter names of an href's query string, in order. *)
Definition param_names (href : string) : list string :=
  match query href with
  | Some q => map fst (pairs q)
  | None => []
  end.

(** The value of the first parameter called [name]. *)
Definition param (name href : string) : option string :=
  match query href with
  | Some q => Py.get name (pairs q)
  | None => None
  end.

End Url.

(* ===================================================================== *)
(** * app/utils/link_generation.py *)
(* ===================================================================== *)

Module LinkGeneration.

(** Exceptions these functions can raise. *)
Inductive exn : Type :=
| ZeroDivisionError
| KeyError (key : string).

(** [a // b] *)
Definition floordiv (a b : Z) : exn + Z :=
  if b =? 0 then inl ZeroDivisionError else inr (a / b).

(** [d[k]] *)
Definition getitem {V} (d : Py.dict V) (k : string) : exn + V :=
  match Py.get k d with
  | Some v => inr v
  | None => inl (KeyError k)
  end.

(** The fields of [app.schemas.link_schema.Link] that this module sets. *)
Record Link : Type := { rel : string; href : string }.

(** The fields of [app.schemas.pagination_schema.PaginationLink]. *)
Record PaginationLink : Type := { plink_rel : string; plink_href : string }.

(** A [uuid.UUID], held as its 128-bit integer. *)
Record UUID : Type := { uuid_int : Z }.

Definition hex_digit (d : Z) : ascii :=
  match String.get (Z.to_nat d) "0123456789abcdef" with
  | Some c => c
  | None => "0"%char
  end.

(** ['%0nx' % z]: the [n] low hexadecimal digits of [z]. *)
Fixpoint hex_fixed (n : nat) (z : Z) (acc : string) : string :=
  match n with
  | O => acc
  | S n' => hex_fixed n' (z / 16) (String (hex_digit (z mod 16)) acc)
  end.

(** [str(uuid)]: 32 hexadecimal digits grouped 8-4-4-4-12. *)
Definition uuid_str (u : UUID) : string :=
  let hex := hex_fixed 32 (uuid_int u) "" in
  substring 0 8 hex ++ "-" ++ substring 8 4 hex ++ "-" ++
  substring 12 4 hex ++ "-" ++ substring 16 4 hex ++ "-" ++
  substring 20 12 hex.

Section WithRequest.
(** [request] is accepted and never inspected. *)
Context {Request : Type}.

Definition create_pagination_link (rel base_url : string)
    (params : Py.dict Py.value) : exn + PaginationLink :=
  match getitem params "skip" with
  | inl e => inl e
  | inr skip =>
      match getitem params "limit" with
      | inl e => inl e
      | inr limit =>
          let query_string :=
            "skip=" ++ Py.str skip ++ "&limit=" ++ Py.str limit in
          inr {| plink_rel := rel;
                 plink_href := base_url ++ "?" ++ query_string |}
      end
  end.

Definition create_user_links (user_id : UUID) (request : Request)
    : Py.dict Link :=
  let base_url := "http://testserver" in
  [ ("self",   {| rel := "self";
                  href := base_url ++ "/users/" ++ uuid_str user_id |});
    ("update", {| rel := "update";
                  href := base_url ++ "/users/" ++ uuid_str user_id |});
    ("delete", {| rel := "delete";
                  href := base_url ++ "/users/" ++ uuid_str user_id |}) ].

(** [query_params] after the optional [update(filters)]. *)
Definition query_params (skip limit : Z)
    (filters : option (Py.dict Py.value)) : Py.dict Py.value :=
  let query_params := [("skip", Py.Int skip); ("limit", Py.Int limit)] in
  if Py.truthy_dict filters then
    match filters with
    | Some f => Py.update query_params f
    | None => query_params
    end
  else query_params.

(** The pieces [f"{k}={v}"] that are joined with [&]. *)
Definition query_parts (qp : Py.dict Py.value) : list string :=
  map (fun kv => fst kv ++ "=" ++ Py.str (snd kv)) qp.

Definition generate_pagination_links (request : Request)
    (skip limit total_items : Z) (filters : option (Py.dict Py.value))
    : exn + Py.dict Link :=
  let base_url := "http://testserver/users" in
  let query_string :=
    String.concat "&" (query_parts (query_params skip limit filters)) in
  match floordiv (total_items - 1) limit with
  | inl e => inl e
  | inr q =>
      let fixed :=
        [ ("self",  {| rel := "self";
                       href := base_url ++ "?" ++ query_string |});
          ("first", {| rel := "first";
                       href := base_url ++ "?skip=0&limit="
                               ++ Py.str_of_int limit |});
          ("last",  {| rel := "last";
                       href := base_url ++ "?skip="
                               ++ Py.str_of_int (Z.max 0 (q * limit))
                               ++ "&limit=" ++ Py.str_of_int limit |}) ] in
      let next :=
        if skip + limit <? total_items
        then [("next", {| rel := "next";
                          href := base_url ++ "?skip="
                                  ++ Py.str_of_int (skip + limit)
                                  ++ "&limit=" ++ Py.str_of_int limit |})]
        else [] in
      let prev :=
        if 0 <? skip
        then [("prev", {| rel := "prev";
                          href := base_url ++ "?skip="
                                  ++ Py.str_of_int (Z.max 0 (skip - limit))
                                  ++ "&limit=" ++ Py.str_of_int limit |})]
        else [] in
      (* the dict display: the three fixed keys, then [**next], [**prev] *)
      inr (Py.update (Py.update fixed next) prev)
  end.

Definition create_verification_link (token : string) : string :=
  "http://testserver/verify_email?token=" ++ token.

End WithRequest.

(** Shorthand for a dict item whose key is the relation name of its link. *)
Definition link (r h : string) : string * Link :=
  (r, {| rel := r; href := h |}).

End LinkGeneration.


(* ===================================================================== *)
(** * app/routers/user_routes.py: [register] and [login] *)
(* ===================================================================== *)

Module UserRoutes.

(** What a handler can raise: FastAPI's [HTTPException], which the framework
    turns into a response with that status, or any other [Exception]
    (a database error, an [AttributeError], ...). *)
Inductive exn : Type :=
| HTTPException (status_code : Z) (detail : string)
| Exception (what : string).

Definition HTTP_400_BAD_REQUEST : Z := 400.
Definition HTTP_401_UNAUTHORIZED : Z := 401.
Definition HTTP_500_INTERNAL_SERVER_ERROR : Z := 500.

(** An [Enum] member; the handlers only read its [name]. *)
Record UserRole : Type := { name : string }.

(** The attributes of [app.models.user_model.User] the handlers read. *)
Record User : Type := {
  id : LinkGeneration.UUID;
  email : string;
  nickname : string;
  first_name : option string;
  last_name : option string;
  bio : option string;
  profile_picture_url : option string;
  linkedin_profile_url : option string;
  github_profile_url : option string;
  role : UserRole;
  is_professional : bool;
  last_login_at : option Z;
  created_at : Z;
  updated_at : Z
}.

(** The request body of [register] ([UserCreate]). *)
Record UserCreate : Type := {
  uc_email : string;
  uc_nickname : string;
  uc_password : string;
  uc_first_name : option string;
  uc_last_name : option string;
  uc_bio : option string;
  uc_profile_picture_url : option string;
  uc_linkedin_profile_url : option string;
  uc_github_profile_url : option string
}.

(** The response body of [register] ([UserResponse]). *)
Record UserResponse : Type := {
  ur_id : LinkGeneration.UUID;
  ur_email : string;
  ur_nickname : string;
  ur_first_name : option string;
  ur_last_name : option string;
  ur_bio : option string;
  ur_profile_picture_url : option string;
  ur_linkedin_profile_url : option string;
  ur_github_profile_url : option string;
  ur_role : UserRole;
  ur_is_professional : bool;
  ur_last_login_at : option Z;
  ur_created_at : Z;
  ur_updated_at : Z;
  ur_links : Py.dict LinkGeneration.Link
}.

(** [OAuth2PasswordRequestForm] *)
Record OAuth2PasswordRequestForm : Type := {
  username : string;
  password : string
}.

(** A decoded bearer token: its claims and the signature over them. *)
Record Token : Type := {
  payload : Py.dict Py.value;
  signature : string
}.

(** The body [login] returns. *)
Record TokenResponse : Type := {
  access_token : Token;
  token_type : string
}.

(** ** Handlers as computations over the database session

    A handler runs against the session, may change it, and either returns or
    raises; what it did to the session before raising stays done. *)

Definition M (Session A : Type) : Type := Session -> (exn + A) * Session.

Definition ret {Session A} (a : A) : M Session A := fun s => (inr a, s).

Definition raise {Session A} (e : exn) : M Session A := fun s => (inl e, s).

Definition bind {Session A B} (m : M Session A) (k : A -> M Session B)
    : M Session B :=
  fun s => match m s with
           | (inr a, s') => k a s'
           | (inl e, s') => (inl e, s')
           end.

(** [try: body / except ...: handler e] *)
Definition try_except {Session A} (body : M Session A)
    (handler : exn -> M Session A) : M Session A :=
  fun s => match body s with
           | (inl e, s') => handler e s'
           | (inr a, s') => (inr a, s')
           end.

Declare Scope handler_scope.
Delimit Scope handler_scope with handler.
Notation "x <- m ;; k" := (bind m (fun x => k))
  (at level 100, m at next level, right associativity) : handler_scope.

(** The persistence collaborator ([app.services.user_service.UserService]),
    as the handlers see it: each call is awaited, may touch the session and
    may raise. *)
Record UserService (Session EmailService : Type) : Type := {
  get_by_email : string -> M Session (option User);
  get_by_nickname : string -> M Session (option User);
  create : UserCreate -> EmailService -> M Session (option User);
  is_account_locked : string -> M Session bool;
  login_user : string -> string -> M Session (option User)
}.
Arguments get_by_email {Session EmailService}.
Arguments get_by_nickname {Session EmailService}.
Arguments create {Session EmailService}.
Arguments is_account_locked {Session EmailService}.
Arguments login_user {Session EmailService}.

Section Handlers.
#[local] Open Scope handler_scope.

Context {Request EmailService Session : Type}.

(** [UserService], bound to the session type of this deployment. *)
Variable user_service : UserService Session EmailService.

(** [str(e)] for an exception. *)
Variable str_exn : exn -> string.

(** [settings.access_token_expire_minutes] *)
Variable access_token_expire_minutes : Z.

(** The clock read by the token issuer (seconds), and its keyed signature. *)
Variable now : Z.
Variable sign : Py.dict Py.value -> string.

(** [timedelta(minutes=m)], in seconds. *)
Definition timedelta_minutes (m : Z) : Z := 60 * m.

(** Modelled from the spec: [JWTService.create_access_token]
    ([app/services/jwt_service.py] is not among the sources).  Section 4.2:
    it "accepts a claims mapping (subject identity, role) and a time-to-live;
    returns an opaque signed token string embedding an expiry derived from
    current time + ttl".  The token is kept decoded: the claims it was given,
    the expiry claim [exp], and the signature over them. *)
Definition create_access_token (data : Py.dict Py.value) (expires_delta : Z)
    : Token :=
  let to_encode := Py.set data "exp" (Py.Int (now + expires_delta)) in
  {| payload := to_encode; signature := sign to_encode |}.

(** Reading the attributes of [created_user]; on [None] the first attribute
    access raises [AttributeError]. *)
Definition user_response (created_user : option User) (request : Request)
    : M Session UserResponse :=
  match created_user with
  | None => raise (Exception "AttributeError")
  | Some u =>
      ret {| ur_id := id u;
             ur_email := email u;
             ur_nickname := nickname u;
             ur_first_name := first_name u;
             ur_last_name := last_name u;
             ur_bio := bio u;
             ur_profile_picture_url := profile_picture_url u;
             ur_linkedin_profile_url := linkedin_profile_url u;
             ur_github_profile_url := github_profile_url u;
             ur_role := role u;
             ur_is_professional := is_professional u;
             ur_last_login_at := last_login_at u;
             ur_created_at := created_at u;
             ur_updated_at := updated_at u;
             ur_links := LinkGeneration.create_user_links (id u) request |}
  end.

(** [if x:] on an optional object. *)
Definition truthy {A} (x : option A) : bool :=
  match x with Some _ => true | None => false end.

(** The [try] body of [register]. *)
Definition register_body (user_data : UserCreate) (request : Request)
    (email_service : EmailService) : M Session UserResponse :=
  existing_user <- get_by_email user_service (uc_email user_data) ;;
  if truthy existing_user then
    raise (HTTPException HTTP_400_BAD_REQUEST "Email already registered")
  else
    existing_nickname <-
      get_by_nickname user_service (uc_nickname user_data) ;;
    if truthy existing_nickname then
      raise (HTTPException HTTP_400_BAD_REQUEST "Nickname already taken")
    else
      created_user <- create user_service user_data email_service ;;
      user_response created_user request.

(** [register]: the body, wrapped in [except Exception as e], which catches
    every exception the body raises, [HTTPException] included. *)
Definition register (user_data : UserCreate) (request : Request)
    (email_service : EmailService) : M Session UserResponse :=
  try_except
    (register_body user_data request email_service)
    (fun e => raise (HTTPException HTTP_500_INTERNAL_SERVER_ERROR (str_exn e))).

(** The [try] body of [login]. *)
Definition login_body (form_data : OAuth2PasswordRequestForm)
    : M Session TokenResponse :=
  locked <- is_account_locked user_service (username form_data) ;;
  if (locked : bool) then
    raise (HTTPException HTTP_400_BAD_REQUEST
             "Account locked due to too many failed login attempts.")
  else
    user <- login_user user_service (username form_data) (password form_data) ;;
    match user with
    | None =>
        raise (HTTPException HTTP_401_UNAUTHORIZED "Incorrect email or password")
    | Some user =>
        let access_token_expires :=
          timedelta_minutes access_token_expire_minutes in
        let access_token :=
          create_access_token
            [("sub", Py.Str (email user)); ("role", Py.Str (name (role user)))]
            access_token_expires in
        ret {| access_token := access_token; token_type := "bearer" |}
    end.

(** [login]: [except HTTPException: raise] first, then
    [except Exception] turning anything else into a 500. *)
Definition login (form_data : OAuth2PasswordRequestForm)
    : M Session TokenResponse :=
  try_except
    (login_body form_data)
    (fun e =>
       match e with
       | HTTPException _ _ => raise e
       | Exception _ =>
           raise (HTTPException HTTP_500_INTERNAL_SERVER_ERROR
                    "An unexpected error occurred during authentication. Please try again later.")
       end).

End Handlers.

(** ** An in-memory user service

    The users table as a list, with stored passwords and a set of locked
    account names; enough to run the handlers on concrete requests. *)

Record Store : Type := {
  users : list (User * string);
  locked : list string
}.

Definition find_user (p : User -> bool) (s : Store) : option User :=
  option_map fst (find (fun up => p (fst up)) (users s)).

Definition new_user (d : UserCreate) (n : nat) : User :=
  {| id := {| LinkGeneration.uuid_int := Z.of_nat n |};
     email := uc_email d;
     nickname := uc_nickname d;
     first_name := uc_first_name d;
     last_name := uc_last_name d;
     bio := uc_bio d;
     profile_picture_url := uc_profile_picture_url d;
     linkedin_profile_url := uc_linkedin_profile_url d;
     github_profile_url := uc_github_profile_url d;
     role := {| name := "AUTHENTICATED" |};
     is_professional := false;
     last_login_at := None;
     created_at := 0;
     updated_at := 0 |}.

Definition memory_service : UserService Store unit :=
  {| get_by_email := fun e s =>
       (inr (find_user (fun u => String.eqb (email u) e) s), s);
     get_by_nickname := fun n s =>
       (inr (find_user (fun u => String.eqb (nickname u) n) s), s);
     create := fun d _ s =>
       let u := new_user d (List.length (users s)) in
       (inr (Some u),
        {| users := List.app (users s) [(u, uc_password d)];
           locked := locked s |});
     is_account_locked := fun n s =>
       (inr (existsb (String.eqb n) (locked s)), s);
     login_user := fun n p s =>
       (inr (option_map fst
               (find (fun up => String.eqb (email (fst up)) n
                                && String.eqb (snd up) p) (users s))), s) |}.

(** Starlette's [HTTPException.__str__]: ["{status_code}: {detail}"]. *)
Definition starlette_str (e : exn) : string :=
  match e with
  | HTTPException c d => Py.str_of_int c ++ ": " ++ d
  | Exception w => w
  end.

(** A store holding one registered user, and requests against it. *)
Definition alice_signup : UserCreate :=
  {| uc_email := "alice@example.com";
     uc_nickname := "alice";
     uc_password := "Secure*1234";
     uc_first_name := Some "Alice";
     uc_last_name := Some "Liddell";
     uc_bio := None;
     uc_profile_picture_url := None;
     uc_linkedin_profile_url := None;
     uc_github_profile_url := None |}.

Definition alice : User := new_user alice_signup 0.

Definition store_with_alice : Store :=
  {| users := [(alice, "Secure*1234")]; locked := [] |}.

Definition store_with_alice_locked : Store :=
  {| users := [(alice, "Secure*1234")]; locked := ["alice@example.com"] |}.

(** A second sign-up that reuses Alice's email under another nickname. *)
Definition second_signup : UserCreate :=
  {| uc_email := "alice@example.com";
     uc_nickname := "alice2";
     uc_password := "Another*5678";
     uc_first_name := Some "Alice";
     uc_last_name := Some "Pleasance";
     uc_bio := None;
     uc_profile_picture_url := None;
     uc_linkedin_profile_url := None;
     uc_github_profile_url := None |}.

Definition good_form : OAuth2PasswordRequestForm :=
  {| username := "alice@example.com"; password := "Secure*1234" |}.

Definition bad_form : OAuth2PasswordRequestForm :=
  {| username := "alice@example.com"; password := "guess" |}.

(** A stand-in for the keyed signature. *)
Definition toy_sign (claims : Py.dict Py.value) : string :=
  String.concat "." (map (fun kv => Py.str (snd kv)) claims).

End UserRoutes.

(* ===================================================================== *)
(** * app/utils/smtp_connection.py: [SMTPClient.send_email] *)
(* ===================================================================== *)

Module SmtpConnection.

(** The exceptions that matter to the control flow: [smtplib]'s
    [__exit__] tells [SMTPServerDisconnected] from the rest. *)
Inductive exn : Type :=
| AttributeError (msg : string)
| OSError (msg : string)
| SMTPServerDisconnected (msg : string)
| SMTPResponseException (code : Z) (msg : string).

(** The [MIMEMultipart] message handed to the transport. *)
Record Message : Type := {
  msg_subject : string;
  msg_from : string;
  msg_to : option string;
  msg_payload : list string
}.

(** What the call does to the outside world, in order. *)
Inductive event : Type :=
| Connect (host : string) (port : Z)
| StartTLS
| Login (user pass : string)
| SendMessage (m : Message)
| Quit
| Close
| LogInfo (text : string)
| LogError (text : string).

(** The answer of the server to a [QUIT] command. *)
Inductive quit_outcome : Type :=
| QuitReply (code : Z) (msg : string)
| QuitRaises (e : exn).

(** How the mail server behaves during one call: for each operation, the
    exception it raises, if any. *)
Record Server : Type := {
  on_connect : option exn;
  on_starttls : option exn;
  on_login : option exn;
  on_send_message : option exn;
  on_quit : quit_outcome
}.

(** The world: the events so far, and whether a transport session is open. *)
Record World : Type := {
  trace : list event;
  session_open : bool
}.

Definition M (A : Type) : Type := World -> (exn + A) * World.

Definition ret {A} (a : A) : M A := fun w => (inr a, w).

Definition raise {A} (e : exn) : M A := fun w => (inl e, w).

Definition bind {A B} (m : M A) (k : A -> M B) : M B :=
  fun w => match m w with
           | (inr a, w') => k a w'
           | (inl e, w') => (inl e, w')
           end.

Declare Scope smtp_scope.
Delimit Scope smtp_scope with smtp.
Notation "x <- m ;; k" := (bind m (fun x => k))
  (at level 100, m at next level, right associativity) : smtp_scope.
Notation "m ;;; k" := (bind m (fun _ => k))
  (at level 100, right associativity) : smtp_scope.

(** Record an event. *)
Definition emit (ev : event) : M unit :=
  fun w => (inr tt, {| trace := List.app (trace w) [ev];
                       session_open := session_open w |}).

Definition set_open (b : bool) : M unit :=
  fun w => (inr tt, {| trace := trace w; session_open := b |}).

(** An operation on the transport: it is attempted, then fails or not as the
    server decides. *)
Definition attempt (ev : event) (outcome : option exn) : M unit :=
  bind (emit ev) (fun _ =>
    match outcome with
    | Some e => raise e
    | None => ret tt
    end).

(** [try: body / except Exception as e: handler e] *)
Definition try_except {A} (body : M A) (handler : exn -> M A) : M A :=
  fun w => match body w with
           | (inl e, w') => handler e w'
           | (inr a, w') => (inr a, w')
           end.

(** [try: body / finally: cleanup] *)
Definition try_finally {A} (body : M A) (cleanup : M unit) : M A :=
  fun w => match body w with
           | (r, w') =>
               match cleanup w' with
               | (inl e, w'') => (inl e, w'')
               | (inr _, w'') => (r, w'')
               end
           end.

Section Transport.
#[local] Open Scope smtp_scope.

Variable server : Server.

(** [smtplib.SMTP(host, port)]: given a host, the constructor connects. *)
Definition SMTP (host : string) (port : Z) : M unit :=
  attempt (Connect host port) (on_connect server) ;;;
  set_open true.

Definition starttls : M unit := attempt StartTLS (on_starttls server).

Definition login (user pass : string) : M unit :=
  attempt (Login user pass) (on_login server).

Definition send_message (m : Message) : M unit :=
  attempt (SendMessage m) (on_send_message server).

(** [SMTP.close()] *)
Definition close : M unit := emit Close ;;; set_open false.

(** [SMTP.__exit__]:
    [try: QUIT, raising SMTPResponseException unless the reply is 221;
     except SMTPServerDisconnected: pass; finally: self.close()] *)
Definition SMTP_exit : M unit :=
  try_finally
    (try_except
       (emit Quit ;;;
        match on_quit server with
        | QuitReply code msg =>
            if code =? 221 then ret tt
            else raise (SMTPResponseException code msg)
        | QuitRaises e => raise e
        end)
       (fun e =>
          match e with
          | SMTPServerDisconnected _ => ret tt
          | _ => raise e
          end))
    close.

(** [with smtplib.SMTP(host, port) as server: body]: once the constructor
    has returned, [__exit__] runs however the body ends; it returns [None],
    so an exception of the body is re-raised unless [__exit__] itself
    raises. *)
Definition with_SMTP {A} (host : string) (port : Z) (body : M A) : M A :=
  SMTP host port ;;;
  (fun w => match body w with
            | (r, w') =>
                match SMTP_exit w' with
                | (inl e, w'') => (inl e, w'')
                | (inr _, w'') => (r, w'')
                end
            end).

(** [SMTPClient] *)
Record SMTPClient : Type := {
  smtp_host : string;
  smtp_port : Z;
  smtp_user : string;
  smtp_pass : string;
  use_tls : bool
}.

(** [str(e)] and the [str] of an optional string in an f-string. *)
Variable str_exn : exn -> string.

Definition str_opt (s : option string) : string :=
  match s with Some s => s | None => "None" end.

(** [html_content or content]: the first operand unless it is [None] or
    empty. *)
Definition py_or (a b : option string) : option string :=
  match a with
  | Some EmptyString => b
  | Some _ => a
  | None => b
  end.

(** [MIMEText(text, 'html')]: encoding [None] raises. *)
Definition MIMEText (text : option string) : M string :=
  match text with
  | Some t => ret t
  | None => raise (AttributeError "'NoneType' object has no attribute 'encode'")
  end.

Definition send_email (self : SMTPClient) (subject : string)
    (content html_content recipient : option string) : M unit :=
  try_except
    (let content_to_send := py_or html_content content in
     part <- MIMEText content_to_send ;;
     let message := {| msg_subject := subject;
                       msg_from := smtp_user self;
                       msg_to := recipient;
                       msg_payload := [part] |} in
     with_SMTP (smtp_host self) (smtp_port self)
       ((if use_tls self then starttls else ret tt) ;;;
        login (smtp_user self) (smtp_pass self) ;;;
        send_message message) ;;;
     emit (LogInfo ("Email sent to " ++ str_opt recipient)))
    (fun e =>
       emit (LogError ("Failed to send email: " ++ str_exn e)) ;;;
       raise e).

End Transport.

(** ** Observations on a run *)

Definition is_connect (ev : event) : bool :=
  match ev with Connect _ _ => true | _ => false end.

Definition is_send (ev : event) : bool :=
  match ev with SendMessage _ => true | _ => false end.

Definition is_close (ev : event) : bool :=
  match ev with Close => true | _ => false end.

Definition is_log_error (ev : event) : bool :=
  match ev with LogError _ => true | _ => false end.

Definition count (p : event -> bool) (t : list event) : nat :=
  List.length (filter p t).

(** The world before the call: nothing has happened, no session is open. *)
Definition idle : World := {| trace := []; session_open := false |}.

(** A [QUIT] that does not make [__exit__] raise. *)
Definition quit_clean (q : quit_outcome) : bool :=
  match q with
  | QuitReply code _ => code =? 221
  | QuitRaises (SMTPServerDisconnected _) => true
  | QuitRaises _ => false
  end.

(** A server on which every operation succeeds. *)
Definition healthy : Server :=
  {| on_connect := None; on_starttls := None; on_login := None;
     on_send_message := None; on_quit := QuitReply 221 "Bye" |}.

(** A server that refuses the credentials. *)
Definition login_refused : Server :=
  {| on_connect := None; on_starttls := None;
     on_login := Some (SMTPResponseException 535 "Authentication failed");
     on_send_message := None; on_quit := QuitReply 221 "Bye" |}.

(** The client [EmailService] constructs. *)
Definition example_client : SMTPClient :=
  {| smtp_host := "smtp.example.com"; smtp_port := 587;
     smtp_user := "user"; smtp_pass := "pass"; use_tls := true |}.

(** The message text of an exception. *)
Definition exn_text (e : exn) : string :=
  match e with
  | AttributeError m | OSError m | SMTPServerDisconnected m => m
  | SMTPResponseException _ m => m
  end.

End SmtpConnection.

(* ===================================================================== *)
(** * app/utils/smtp_connection.py: the rest of the module *)
(* ===================================================================== *)

Module SmtpConnectionMore.
Import SmtpConnection.

Definition is_login (ev : event) : bool :=
  match ev with Login _ _ => true | _ => false end.

Definition is_starttls (ev : event) : bool :=
  match ev with StartTLS => true | _ => false end.

(** [SMTPClient.get_server]: a fresh transport object, handed to the caller
    as it is. *)
Definition get_server (server : Server) (self : SMTPClient) : M unit :=
  SMTP server (smtp_host self) (smtp_port self).

End SmtpConnectionMore.

(** The second class of the module, [SMTPConnection]. *)
Module SMTPConnectionClass.
Import SmtpConnection.

(** What [__init__] stores on the instance: [smtp_host], [smtp_port],
    [smtp_user], [smtp_pass] and [use_tls]. *)
Record SMTPConnection : Type := {
  conn_host : string;
  conn_port : Z;
  conn_user : string;
  conn_pass : string;
  conn_use_tls : bool
}.

(** [self.<name>] for an attribute read as a string: the instance has the
    attributes [__init__] stored and no others. *)
Definition getattr_str (self : SMTPConnection) (name : string) : M string :=
  if String.eqb name "smtp_host" then ret (conn_host self)
  else if String.eqb name "smtp_user" then ret (conn_user self)
  else if String.eqb name "smtp_pass" then ret (conn_pass self)
  else raise (AttributeError
                ("'SMTPConnection' object has no attribute '" ++ name ++ "'")).

Section Transport.
#[local] Open Scope smtp_scope.

Variable server : Server.
Variable str_exn : exn -> string.

(** [SMTPConnection.send_email]: the arguments of [server.login] are
    [self.username] and [self.password], evaluated before the call. *)
Definition send_email (self : SMTPConnection)
    (subject content recipient : string) : M unit :=
  try_except
    (host <- getattr_str self "smtp_host" ;;
     with_SMTP server host (conn_port self)
       (starttls server ;;;
        (username <- getattr_str self "username" ;;
         password <- getattr_str self "password" ;;
         login server username password ;;;
         (sender <- getattr_str self "username" ;;
          send_message server
            {| msg_subject := subject;
               msg_from := sender;
               msg_to := Some recipient;
               msg_payload := [content] |}))))
    (fun e =>
       emit (LogError ("Failed to send email: " ++ str_exn e)) ;;;
       raise e).

End Transport.

End SMTPConnectionClass.

(* ===================================================================== *)
(** * app/services/email_service.py *)
(* ===================================================================== *)

Module EmailService.
Import SmtpConnection.

(** What the service can raise: its own [ValueError], a [KeyError] from
    [user_data], whatever the template renderer raises, and what the
    transport raises. *)
Inductive exn : Type :=
| ValueError (msg : string)
| KeyError (key : string)
| TemplateError (what : string)
| TransportError (e : SmtpConnection.exn).

Definition M (A : Type) : Type := World -> (exn + A) * World.

Definition ret {A} (a : A) : M A := fun w => (inr a, w).

Definition raise {A} (e : exn) : M A := fun w => (inl e, w).

Definition bind {A B} (m : M A) (k : A -> M B) : M B :=
  fun w => match m w with
           | (inr a, w') => k a w'
           | (inl e, w') => (inl e, w')
           end.

(** A call into the SMTP client. *)
Definition call {A} (m : SmtpConnection.M A) : M A :=
  fun w => match m w with
           | (inr a, w') => (inr a, w')
           | (inl e, w') => (inl (TransportError e), w')
           end.

(** The result of a call that only computes. *)
Definition pure {A} (r : exn + A) : M A := fun w => (r, w).

(** [d[k]] *)
Definition getitem {V} (d : Py.dict V) (k : string) : M V :=
  match Py.get k d with
  | Some v => ret v
  | None => raise (KeyError k)
  end.

(** The attributes of [User] that [send_verification_email] reads. *)
Record User : Type := {
  id : LinkGeneration.UUID;
  verification_token : option string;
  first_name : option string;
  email : string
}.

(** The service object: its SMTP client (the template manager is the
    [render_email_template] below). *)
Record EmailService : Type := { smtp_client : SMTPClient }.

(** [EmailService.__init__] *)
Definition init : EmailService :=
  {| smtp_client := {| smtp_host := "smtp.example.com";
                       smtp_port := 587;
                       smtp_user := "user";
                       smtp_pass := "pass";
                       use_tls := true |} |}.

Definition subject_map : Py.dict string :=
  [ ("email_verification", "Verify Your Account");
    ("verification_email", "Verify Your Account");
    ("password_reset", "Password Reset Instructions");
    ("account_locked", "Account Locked Notification") ].

Section Service.

Variable server : Server.
Variable str_exn : SmtpConnection.exn -> string.

(** [TemplateManager.render_email_template] ([app/utils/template_manager.py]
    is not among the sources): it returns the rendered HTML or raises. *)
Variable render_email_template :
  string -> Py.dict (option string) -> exn + string.

(** [settings.server_base_url] *)
Variable server_base_url : string.

(** [send_user_email]: the three arguments of [send_email] are passed by
    position, so they bind to [subject], [content] and [html_content];
    [recipient] keeps its default. *)
Definition send_user_email (self : EmailService)
    (user_data : Py.dict (option string)) (email_type : string) : M unit :=
  if negb (Py.mem email_type subject_map) then
    raise (ValueError ("Invalid email type: " ++ email_type))
  else
    bind (pure (render_email_template email_type user_data))
      (fun html_content =>
    bind (getitem subject_map email_type) (fun subject =>
    bind (getitem user_data "email") (fun address =>
    call (SmtpConnection.send_email server str_exn (smtp_client self)
            subject (Some html_content) address None)))).

Definition send_verification_email (self : EmailService) (user : User)
    : M unit :=
  let verification_url :=
    server_base_url ++ "verify-email/" ++ LinkGeneration.uuid_str (id user)
    ++ "/" ++ str_opt (verification_token user) in
  send_user_email self
    [ ("name", first_name user);
      ("verification_url", Some verification_url);
      ("email", Some (email user)) ]
    "email_verification".

End Service.

(** A renderer that wraps the template name, and a user to write to. *)
Definition plain_template (email_type : string)
    (user_data : Py.dict (option string)) : exn + string :=
  inr ("<p>" ++ email_type ++ "</p>").

Definition bob : User :=
  {| id := {| LinkGeneration.uuid_int := 7 |};
     verification_token := Some "t0k3n";
     first_name := Some "Bob";
     email := "bob@example.com" |}.

End EmailService.

(* ===================================================================== *)
(** * app/routers/user_routes.py: the other handlers *)
(* ===================================================================== *)

(** The rest of the persistence collaborator ([UserService]), as the other
    handlers call it. *)
Module UserServiceMore.

Record Ops (Session : Type) : Type := {
  get_by_id : LinkGeneration.UUID -> UserRoutes.M Session (option UserRoutes.User);
  update : LinkGeneration.UUID -> Py.dict (option string)
           -> UserRoutes.M Session (option UserRoutes.User);
  delete : LinkGeneration.UUID -> UserRoutes.M Session bool;
  count : UserRoutes.M Session Z;
  list_users : Z -> Z -> UserRoutes.M Session (list UserRoutes.User);
  verify_email_with_token : LinkGeneration.UUID -> string -> UserRoutes.M Session bool;
  verify_email : string -> UserRoutes.M Session bool;
  update_profile_picture : LinkGeneration.UUID -> string
                           -> UserRoutes.M Session (option UserRoutes.User);
  update_user : LinkGeneration.UUID -> Py.dict (option string)
                -> UserRoutes.M Session (option UserRoutes.User);
  update_professional_info : LinkGeneration.UUID -> Py.dict (option string)
                             -> UserRoutes.M Session (option UserRoutes.User)
}.
Arguments get_by_id {Session}.
Arguments update {Session}.
Arguments delete {Session}.
Arguments count {Session}.
Arguments list_users {Session}.
Arguments verify_email_with_token {Session}.
Arguments verify_email {Session}.
Arguments update_profile_picture {Session}.
Arguments update_user {Session}.
Arguments update_professional_info {Session}.

End UserServiceMore.

(** The role checks of the routes are [Depends(require_role(...))]
    arguments, resolved by the framework before a handler body runs; the
    handlers below are the bodies. *)
Module UserRoutesMore.
Import UserRoutes.

Definition HTTP_404_NOT_FOUND : Z := 404.
Definition HTTP_204_NO_CONTENT : Z := 204.

(** What [UserResponse.model_construct(...)] is given; [role] is passed by
    [get_user] only. *)
Record ConstructedUser : Type := {
  cu_id : LinkGeneration.UUID;
  cu_nickname : string;
  cu_first_name : option string;
  cu_last_name : option string;
  cu_bio : option string;
  cu_profile_picture_url : option string;
  cu_github_profile_url : option string;
  cu_linkedin_profile_url : option string;
  cu_role : option UserRole;
  cu_email : string;
  cu_last_login_at : option Z;
  cu_created_at : Z;
  cu_updated_at : Z;
  cu_links : Py.dict LinkGeneration.Link
}.

(** [UserListResponse] *)
Record UserListResponse : Type := {
  items : list UserResponse;
  total : Z;
  page : Z;
  size : Z;
  links : Py.dict LinkGeneration.Link
}.

(** An exception of the link builder, as a handler sees it. *)
Definition of_link_exn (e : LinkGeneration.exn) : exn :=
  match e with
  | LinkGeneration.ZeroDivisionError => Exception "ZeroDivisionError"
  | LinkGeneration.KeyError _ => Exception "KeyError"
  end.

Definition pure {Session A} (r : LinkGeneration.exn + A) : M Session A :=
  match r with
  | inl e => raise (of_link_exn e)
  | inr a => ret a
  end.

(** A list comprehension whose element expression may raise. *)
Fixpoint comprehension {Session A B} (f : A -> exn + B) (l : list A)
    : M Session (list B) :=
  match l with
  | [] => ret []
  | a :: l' =>
      match f a with
      | inl e => raise e
      | inr b => bind (comprehension f l') (fun bs => ret (b :: bs))
      end
  end.

Section Handlers.
#[local] Open Scope handler_scope.

Context {Request EmailService Session : Type}.

Variable user_service : UserService Session EmailService.
Variable user_service_more : UserServiceMore.Ops Session.
Variable str_exn : exn -> string.

(** [UserResponse.model_validate] (the schema is not among the sources): it
    returns the validated response or raises. *)
Variable model_validate : User -> exn + UserResponse.

Definition construct (u : User) (with_role : bool) (request : Request)
    : ConstructedUser :=
  {| cu_id := id u;
     cu_nickname := nickname u;
     cu_first_name := first_name u;
     cu_last_name := last_name u;
     cu_bio := bio u;
     cu_profile_picture_url := profile_picture_url u;
     cu_github_profile_url := github_profile_url u;
     cu_linkedin_profile_url := linkedin_profile_url u;
     cu_role := if with_role then Some (role u) else None;
     cu_email := email u;
     cu_last_login_at := last_login_at u;
     cu_created_at := created_at u;
     cu_updated_at := updated_at u;
     cu_links := LinkGeneration.create_user_links (id u) request |}.

Definition get_user (user_id : LinkGeneration.UUID) (request : Request)
    : M Session ConstructedUser :=
  user <- UserServiceMore.get_by_id user_service_more user_id ;;
  match user with
  | None => raise (HTTPException HTTP_404_NOT_FOUND "User not found")
  | Some user => ret (construct user true request)
  end.

Definition update_user (user_id : LinkGeneration.UUID)
    (user_update : Py.dict (option string)) (request : Request)
    : M Session ConstructedUser :=
  let user_data := user_update in
  updated_user <- UserServiceMore.update user_service_more user_id user_data ;;
  match updated_user with
  | None => raise (HTTPException HTTP_404_NOT_FOUND "User not found")
  | Some updated_user => ret (construct updated_user false request)
  end.

(** [delete_user]: the status of the empty response. *)
Definition delete_user (user_id : LinkGeneration.UUID) : M Session Z :=
  success <- UserServiceMore.delete user_service_more user_id ;;
  if (success : bool) then ret HTTP_204_NO_CONTENT
  else raise (HTTPException HTTP_404_NOT_FOUND "User not found").

Definition create_user (user : UserCreate) (request : Request)
    (email_service : EmailService) : M Session ConstructedUser :=
  try_except
    (existing_user <- get_by_email user_service (uc_email user) ;;
     if truthy existing_user then
       raise (HTTPException HTTP_400_BAD_REQUEST "Email already exists")
     else
       created_user <- create user_service user email_service ;;
       match created_user with
       | None =>
           raise (HTTPException HTTP_500_INTERNAL_SERVER_ERROR
                    "Failed to create user")
       | Some created_user => ret (construct created_user false request)
       end)
    (fun e => raise (HTTPException HTTP_500_INTERNAL_SERVER_ERROR (str_exn e))).

Definition list_users (request : Request) (skip limit : Z)
    : M Session UserListResponse :=
  total_users <- UserServiceMore.count user_service_more ;;
  users <- UserServiceMore.list_users user_service_more skip limit ;;
  user_responses <- comprehension model_validate users ;;
  pagination_links <-
    pure (LinkGeneration.generate_pagination_links request skip limit
            total_users None) ;;
  page_index <- pure (LinkGeneration.floordiv skip limit) ;;
  ret {| items := user_responses;
         total := total_users;
         page := page_index + 1;
         size := Z.of_nat (List.length user_responses);
         links := pagination_links |}.

(** [GET /verify-email/{user_id}/{token}] *)
Definition verify_email (user_id : LinkGeneration.UUID)
    (token : string) : M Session string :=
  ok <- UserServiceMore.verify_email_with_token user_service_more user_id token ;;
  if (ok : bool) then ret "Email verified successfully"
  else raise (HTTPException HTTP_400_BAD_REQUEST
                "Invalid or expired verification token").

(** [POST /users/verify-email/{token}]: [except ValueError] only. *)
Definition verify_email_by_token (token : string)
    : M Session string :=
  try_except
    (ok <- UserServiceMore.verify_email user_service_more token ;;
     if (ok : bool) then ret "Email verified successfully"
     else raise (HTTPException 400 "Invalid verification token"))
    (fun e =>
       match e with
       | Exception what =>
           if String.eqb what "ValueError"
           then raise (HTTPException 400 (str_exn e))
           else raise e
       | HTTPException _ _ => raise e
       end).

(** [current_user["user_id"]] *)
Definition requester_id (current_user : Py.dict Py.value)
    : M Session Py.value :=
  match Py.get "user_id" current_user with
  | Some v => ret v
  | None => raise (Exception "KeyError")
  end.

(** [str(a) != str(b)] *)
Definition str_differs (a b : string) : bool := negb (String.eqb a b).

Definition update_profile_picture (user_id : LinkGeneration.UUID)
    (profile_picture_url : string) (current_user : Py.dict Py.value)
    : M Session User :=
  requester <- requester_id current_user ;;
  if str_differs (Py.str requester) (LinkGeneration.uuid_str user_id) then
    raise (HTTPException 403 "Not authorized to update this profile")
  else
    updated_user <-
      UserServiceMore.update_profile_picture user_service_more user_id profile_picture_url ;;
    match updated_user with
    | None => raise (HTTPException 404 "User not found")
    | Some updated_user => ret updated_user
    end.

(** [PATCH /{user_id}/professional]: the requester is a [User]; whatever the
    service returns is returned. *)
Definition update_user_professional_info (user_id : LinkGeneration.UUID)
    (professional_info : Py.dict (option string)) (current_user : User)
    : M Session (option User) :=
  if str_differs (LinkGeneration.uuid_str (id current_user))
                 (LinkGeneration.uuid_str user_id) then
    raise (HTTPException 403 "Not authorized to update this user")
  else
    UserServiceMore.update_user user_service_more user_id
      [ ("linkedin_profile_url",
         match Py.get "linkedin_url" professional_info with
         | Some v => v | None => None end);
        ("github_profile_url",
         match Py.get "github_url" professional_info with
         | Some v => v | None => None end) ].

Definition update_professional_info (user_id : LinkGeneration.UUID)
    (professional_data : Py.dict (option string))
    (current_user : Py.dict Py.value) : M Session User :=
  requester <- requester_id current_user ;;
  if str_differs (Py.str requester) (LinkGeneration.uuid_str user_id) then
    raise (HTTPException 403 "Not authorized to update this profile")
  else
    updated_user <-
      UserServiceMore.update_professional_info user_service_more user_id professional_data ;;
    match updated_user with
    | None => raise (HTTPException 404 "User not found")
    | Some updated_user => ret updated_user
    end.

End Handlers.

(** A service that differs from [svc] in its [create] operation only. *)
Definition with_create {Session EmailService : Type}
    (svc : UserService Session EmailService)
    (c : UserCreate -> EmailService -> M Session (option User))
    : UserService Session EmailService :=
  {| get_by_email := get_by_email svc;
     get_by_nickname := get_by_nickname svc;
     create := c;
     is_account_locked := is_account_locked svc;
     login_user := login_user svc |}.

(** ** The in-memory user service, continued

    Enough of the remaining operations to run the other handlers: lookups
    and listing over the users list; the one token it accepts is ["valid"],
    and an empty token is malformed. *)

Definition same_id (a b : LinkGeneration.UUID) : bool :=
  LinkGeneration.uuid_int a =? LinkGeneration.uuid_int b.

Definition memory_service_more : UserServiceMore.Ops Store :=
  {| UserServiceMore.get_by_id := fun i s =>
       (inr (find_user (fun u => same_id (id u) i) s), s);
     UserServiceMore.update := fun i _ s =>
       (inr (find_user (fun u => same_id (id u) i) s), s);
     UserServiceMore.delete := fun i s =>
       (inr (existsb (fun up => same_id (id (fst up)) i) (users s)),
        {| users := filter (fun up => negb (same_id (id (fst up)) i)) (users s);
           locked := locked s |});
     UserServiceMore.count := fun s =>
       (inr (Z.of_nat (List.length (users s))), s);
     UserServiceMore.list_users := fun skip limit s =>
       (inr (map fst (firstn (Z.to_nat limit)
                        (skipn (Z.to_nat skip) (users s)))), s);
     UserServiceMore.verify_email_with_token := fun _ token s =>
       (inr (String.eqb token "valid"), s);
     UserServiceMore.verify_email := fun token s =>
       if String.eqb token "" then (inl (Exception "ValueError"), s)
       else (inr (String.eqb token "valid"), s);
     UserServiceMore.update_profile_picture := fun i _ s =>
       (inr (find_user (fun u => same_id (id u) i) s), s);
     UserServiceMore.update_user := fun i _ s =>
       (inr (find_user (fun u => same_id (id u) i) s), s);
     UserServiceMore.update_professional_info := fun i _ s =>
       (inr (find_user (fun u => same_id (id u) i) s), s) |}.

(** A validation that accepts every user. *)
Definition validate_plain (u : User) : exn + UserResponse :=
  inr {| ur_id := id u;
         ur_email := email u;
         ur_nickname := nickname u;
         ur_first_name := first_name u;
         ur_last_name := last_name u;
         ur_bio := bio u;
         ur_profile_picture_url := profile_picture_url u;
         ur_linkedin_profile_url := linkedin_profile_url u;
         ur_github_profile_url := github_profile_url u;
         ur_role := role u;
         ur_is_professional := is_professional u;
         ur_last_login_at := last_login_at u;
         ur_created_at := created_at u;
         ur_updated_at := updated_at u;
         ur_links := [] |}.

(** Someone else's identity, as [get_current_user] would give it. *)
Definition mallory_identity : Py.dict Py.value :=
  [ ("user_id", Py.Str "00000000-0000-0000-0000-00000000002a");
    ("role", Py.Str "AUTHENTICATED") ].

Definition mallory : User :=
  new_user {| uc_email := "mallory@example.com";
              uc_nickname := "mallory";
              uc_password := "Sneaky*4321";
              uc_first_name := None;
              uc_last_name := None;
              uc_bio := None;
              uc_profile_picture_url := None;
              uc_linkedin_profile_url := None;
              uc_github_profile_url := None |} 42.

End UserRoutesMore.

(** Shorthand for a pagination link of the users collection. *)
Module LinkGenerationMore.
Import LinkGeneration.

Definition users_link (r : string) (n limit : Z) : string * Link :=
  link r ("http://testserver/users" ++ "?skip=" ++ Py.str_of_int n
          ++ "&limit=" ++ Py.str_of_int limit).

End LinkGenerationMore.

(* ===================================================================== *)
(** * Properties of the link builder *)
(* ===================================================================== *)

Section UrlFacts.

Lemma occurs_app c a b :
  Url.occurs c (a ++ b) = Url.occurs c a || Url.occurs c b.
Proof.
  induction a as [|x a IH]; simpl; [reflexivity|].
  rewrite IH. now rewrite orb_assoc.
Qed.

Lemma eqb_digit_false c (d : ascii) :
  Url.decimal_char c = false -> Url.decimal_char d = true ->
  Ascii.eqb d c = false.
Proof.
  intros Hc Hd. destruct (Ascii.eqb_spec d c) as [->|]; [|reflexivity].
  congruence.
Qed.

Lemma occurs_string_of_uint c d :
  Url.decimal_char c = false ->
  Url.occurs c (NilEmpty.string_of_uint d) = false.
Proof.
  intros Hc.
  induction d; cbn [NilEmpty.string_of_uint Url.occurs]; try reflexivity;
    rewrite IHd, orb_false_r; apply eqb_digit_false; auto.
Qed.

Lemma occurs_str_of_int c z :
  Url.decimal_char c = false -> Url.occurs c (Py.str_of_int z) = false.
Proof.
  intros Hc. unfold Py.str_of_int, NilZero.string_of_int.
  assert (U : forall d, Url.occurs c (NilZero.string_of_uint d) = false).
  { intros d. pose proof (occurs_string_of_uint c d Hc) as H.
    destruct d; try exact H.
    cbn [NilZero.string_of_uint Url.occurs].
    rewrite orb_false_r. apply eqb_digit_false; auto. }
  destruct (Z.to_int z); [apply U|].
  cbn [Url.occurs]. rewrite U, orb_false_r. apply eqb_digit_false; auto.
Qed.

Lemma split_absent c a : Url.occurs c a = false -> Url.split c a = [a].
Proof.
  induction a as [|x a IH]; simpl; [reflexivity|].
  intros H. apply orb_false_elim in H as [Hx Ha].
  rewrite Hx, (IH Ha). reflexivity.
Qed.

Lemma split_first c a b :
  Url.occurs c a = false ->
  Url.split c (a ++ String c b) = a :: Url.split c b.
Proof.
  induction a as [|x a IH]; simpl.
  - intros _. now rewrite Ascii.eqb_refl.
  - intros H. apply orb_false_elim in H as [Hx Ha].
    rewrite Hx, (IH Ha). reflexivity.
Qed.

Lemma partition_first c a b :
  Url.occurs c a = false ->
  Url.partition c (a ++ String c b) = (a, Some b).
Proof.
  induction a as [|x a IH]; simpl.
  - intros _. now rewrite Ascii.eqb_refl.
  - intros H. apply orb_false_elim in H as [Hx Ha].
    rewrite Hx, (IH Ha). reflexivity.
Qed.

Lemma append_assoc (a b c : string) : (a ++ b) ++ c = a ++ b ++ c.
Proof. induction a; simpl; congruence. Qed.

(** A query string [skip=a&limit=b] reads back as those two pairs, as long
    as the values are free of separators. *)
Lemma pairs_skip_limit a b :
  Url.occurs "&" a = false -> Url.occurs "&" b = false ->
  Url.pairs ("skip=" ++ a ++ "&limit=" ++ b) = [("skip", a); ("limit", b)].
Proof.
  intros Ha Hb. unfold Url.pairs.
  change ("skip=" ++ a ++ "&limit=" ++ b)
    with ("skip=" ++ a ++ String "&" ("limit=" ++ b)).
  rewrite <- append_assoc, split_first, split_absent.
  - reflexivity.
  - simpl. exact Hb.
  - simpl. exact Ha.
Qed.

(** Reading a link [base?skip=a&limit=b] whose base has no [?]. *)
Lemma read_skip_limit base a b :
  Url.occurs "?" base = false ->
  Url.occurs "&" a = false -> Url.occurs "&" b = false ->
  Url.param_names (base ++ "?skip=" ++ a ++ "&limit=" ++ b)
    = ["skip"; "limit"] /\
  Url.param "skip" (base ++ "?skip=" ++ a ++ "&limit=" ++ b) = Some a /\
  Url.param "limit" (base ++ "?skip=" ++ a ++ "&limit=" ++ b) = Some b.
Proof.
  intros Hq Ha Hb. unfold Url.param_names, Url.param, Url.query.
  change (base ++ "?skip=" ++ a ++ "&limit=" ++ b)
    with (base ++ String "?" ("skip=" ++ a ++ "&limit=" ++ b)).
  rewrite partition_first by assumption. cbn [snd].
  change (Url.pairs _) with (Url.pairs ("skip=" ++ a ++ "&limit=" ++ b)).
  rewrite pairs_skip_limit by assumption. repeat split.
Qed.

End UrlFacts.

Section LinkBuilder.
Import LinkGeneration.

Context {Request : Type}.
Variable request : Request.

Lemma floordiv_nonzero a b : b <> 0 -> floordiv a b = inr (a / b).
Proof.
  intros H. unfold floordiv.
  destruct (Z.eqb_spec b 0); [contradiction | reflexivity].
Qed.

(** Case analysis on the two optional links of a call that does not raise. *)
Ltac pagination_cases skip limit total :=
  unfold generate_pagination_links;
  rewrite floordiv_nonzero by lia;
  destruct (Z.ltb_spec (skip + limit) total);
  destruct (Z.ltb_spec 0 skip);
  cbn [Py.update Py.set fold_left fst snd String.eqb Ascii.eqb Bool.eqb].

(** C1.  With [limit > 0], the returned links contain [next] exactly when
    [skip + limit < total_items], and [prev] exactly when [skip > 0]. *)
Theorem next_prev_presence skip limit total_items filters :
  0 < limit ->
  exists links,
    generate_pagination_links request skip limit total_items filters
      = inr links /\
    (Py.mem "next" links = true <-> skip + limit < total_items) /\
    (Py.mem "prev" links = true <-> 0 < skip).
Proof.
  intros Hl.
  pagination_cases skip limit total_items;
    (eexists; split; [reflexivity|]);
    unfold Py.mem; cbn; split; split; intros; solve [lia | congruence].
Qed.

(** C4.  With [limit > 0] the call never raises, its result does not depend
    on anything but its arguments (any two requests give the same links),
    and [self], [first] and [last] are always among the links. *)
Theorem pagination_total_with_fixed_links skip limit total_items filters :
  0 < limit ->
  exists links,
    (forall request' : Request,
        generate_pagination_links request' skip limit total_items filters
          = inr links) /\
    Py.mem "self" links = true /\
    Py.mem "first" links = true /\
    Py.mem "last" links = true.
Proof.
  intros Hl.
  pagination_cases skip limit total_items;
    (eexists; split; [intros; reflexivity|]);
    unfold Py.mem; cbn; repeat split.
Qed.

Lemma last_offset_empty limit : 0 < limit -> Z.max 0 ((0 - 1) / limit * limit) = 0.
Proof.
  intros Hl.
  assert ((0 - 1) / limit = -1) as ->.
  { symmetry. apply (Z.div_unique (0 - 1) limit (-1) (limit - 1)); lia. }
  lia.
Qed.

(** C2.  With [limit > 0], the [skip] parameter of the [last] link is
    [max(0, ((total_items - 1) // limit) * limit)], which is [0] when there
    are no items. *)
Theorem last_link_offset skip limit total_items filters :
  0 < limit ->
  exists links last,
    generate_pagination_links request skip limit total_items filters
      = inr links /\
    Py.get "last" links = Some last /\
    Url.param "skip" (href last)
      = Some (Py.str_of_int (Z.max 0 ((total_items - 1) / limit * limit))) /\
    (total_items = 0 -> Url.param "skip" (href last) = Some "0").
Proof.
  intros Hl.
  assert (R : forall n,
    Url.param "skip" ("http://testserver/users" ++ "?skip=" ++ Py.str_of_int n
                      ++ "&limit=" ++ Py.str_of_int limit)
    = Some (Py.str_of_int n)).
  { intros n. apply read_skip_limit;
      [reflexivity | apply occurs_str_of_int; reflexivity ..]. }
  pagination_cases skip limit total_items;
    (eexists; eexists; split; [reflexivity|]);
    (split; [cbn; reflexivity|]); cbn [href];
    (split; [apply R|]); intros ->;
    (etransitivity; [apply R|]); rewrite last_offset_empty by lia;
    reflexivity.
Qed.

End LinkBuilder.

Section DictFacts.
Context {V : Type}.
Implicit Types (d f : Py.dict V) (k : string) (v : V).

Lemma In_set_same d k v : In (k, v) (Py.set d k v).
Proof.
  induction d as [|[k' v'] d IH]; cbn [Py.set]; [now left|].
  destruct (String.eqb_spec k k') as [->|]; [now left | now right].
Qed.

Lemma In_set_other d k v k' v' :
  k <> k' -> In (k, v) d -> In (k, v) (Py.set d k' v').
Proof.
  intros Hk. induction d as [|[k0 v0] d IH]; cbn [Py.set]; [intros []|].
  intros [E|H].
  - inversion E; subst.
    destruct (String.eqb_spec k' k); [congruence | now left].
  - destruct (String.eqb_spec k' k0); right; auto.
Qed.

Lemma In_update_keep f : forall d k v,
  ~ In k (Py.keys f) -> In (k, v) d -> In (k, v) (Py.update d f).
Proof.
  unfold Py.update.
  induction f as [|[k' v'] f IH]; intros d k v Hk H; cbn [fold_left]; [exact H|].
  cbn in Hk. apply IH; [tauto|]. apply In_set_other; [|exact H].
  intros ->. tauto.
Qed.

(** After [d.update(f)] every item of a (duplicate-free) [f] is in [d]. *)
Lemma In_update f : NoDup (Py.keys f) -> forall d k v,
  In (k, v) f -> In (k, v) (Py.update d f).
Proof.
  induction f as [|[k' v'] f IH]; intros ND d k v H; [destruct H|].
  cbn in ND. inversion ND as [|? ? Hn ND']; subst.
  change (Py.update d ((k', v') :: f)) with (Py.update (Py.set d k' v') f).
  destruct H as [E|H].
  - inversion E; subst. apply In_update_keep; [exact Hn | apply In_set_same].
  - now apply IH.
Qed.

(** Assigning a key never moves or removes the keys already there. *)
Lemma keys_set d k v :
  Py.keys (Py.set d k v)
  = List.app (Py.keys d) (if Py.mem k d then [] else [k]).
Proof.
  unfold Py.mem.
  induction d as [|[k' v'] d IH]; cbn [Py.set Py.get Py.keys map List.app fst];
    [reflexivity|].
  destruct (String.eqb k k'); cbn [map fst List.app].
  - now rewrite app_nil_r.
  - f_equal. exact IH.
Qed.

Lemma mem_In k d : Py.mem k d = true <-> In k (Py.keys d).
Proof.
  unfold Py.mem.
  induction d as [|[k' v'] d IH]; cbn [Py.get Py.keys map fst In].
  - split; [discriminate | tauto].
  - destruct (String.eqb_spec k k') as [->|Hn].
    + split; auto.
    + rewrite IH. split; [auto | intros [E|H]; [congruence | exact H]].
Qed.

(** [d.update(f)] keeps the keys of [d] in front, in their order, and only
    appends keys of [f] that [d] did not have. *)
Lemma keys_update f : forall d, exists extra,
  Py.keys (Py.update d f) = List.app (Py.keys d) extra /\
  forall k, In k extra -> In k (Py.keys f) /\ ~ In k (Py.keys d).
Proof.
  unfold Py.update.
  induction f as [|[k' v'] f IH]; intros d; cbn [fold_left fst snd].
  - exists []. rewrite app_nil_r. split; [reflexivity | intros k []].
  - destruct (IH (Py.set d k' v')) as (extra & E & Hx).
    rewrite keys_set in E. rewrite <- app_assoc in E.
    eexists. split; [exact E|].
    intros k Hk. apply in_app_or in Hk as [Hk|Hk].
    + destruct (Py.mem k' d) eqn:Hm; [destruct Hk|].
      destruct Hk as [<-|[]]. split; [now left|].
      rewrite <- mem_In. congruence.
    + destruct (Hx k Hk) as [H1 H2]. split; [now right|].
      intros Hd. apply H2. rewrite keys_set. apply in_or_app. now left.
Qed.

End DictFacts.

Section JoinFacts.

Lemma append_nil_r (s : string) : s ++ "" = s.
Proof. induction s; simpl; congruence. Qed.

(** One of the joined pieces is a substring of the joined string. *)
Lemma concat_In sep x l :
  In x l -> exists pre post, String.concat sep l = pre ++ x ++ post.
Proof.
  induction l as [|y l IH]; [intros []|].
  intros [->|H].
  - destruct l as [|z l].
    + exists "", "". cbn. now rewrite append_nil_r.
    + exists "", (sep ++ String.concat sep (z :: l)). reflexivity.
  - destruct (IH H) as (pre & post & E).
    destruct l as [|z l]; [destruct H|].
    exists (y ++ sep ++ pre), post.
    change (String.concat sep (y :: z :: l))
      with (y ++ sep ++ String.concat sep (z :: l)).
    rewrite E. now rewrite !append_assoc.
Qed.

(** Joining with [&] is the head followed by each further piece behind its
    own [&]. *)
Lemma concat_amp x l :
  String.concat "&" (x :: l)
  = x ++ String.concat "" (map (fun p => "&" ++ p) l).
Proof.
  revert x. induction l as [|y l IH]; intros x.
  - cbn. now rewrite append_nil_r.
  - change (String.concat "&" (x :: y :: l))
      with (x ++ "&" ++ String.concat "&" (y :: l)).
    rewrite IH. f_equal. cbn [map].
    destruct l as [|z l]; cbn [map String.concat].
    + cbn. now rewrite append_nil_r.
    + cbn [String.append]. reflexivity.
Qed.

Lemma concat_nil_app (x : string) l :
  String.concat "" (x :: l) = x ++ String.concat "" l.
Proof.
  destruct l; cbn; [now rewrite append_nil_r | reflexivity].
Qed.

End JoinFacts.

Section LinkFormat.
Import LinkGeneration.

Context {Request : Type}.
Variable request : Request.

(** A call that returns was given a non-zero limit. *)
Lemma returns_nonzero_limit skip limit total_items filters links :
  generate_pagination_links request skip limit total_items filters
    = inr links ->
  limit <> 0.
Proof.
  unfold generate_pagination_links, floordiv. intros H ->.
  discriminate H.
Qed.

(** What a non-raising call returns: the [self] link, built from the joined
    query parameters, in front of links that are the same whatever the
    filters and whose targets are [?skip=n&limit=limit]. *)
Lemma pagination_links_shape skip limit total_items :
  limit <> 0 ->
  exists others,
    (forall filters,
        generate_pagination_links request skip limit total_items filters
        = inr (("self",
                {| rel := "self";
                   href := "http://testserver/users" ++ "?" ++
                     String.concat "&"
                       (query_parts (query_params skip limit filters)) |})
               :: others)) /\
    (forall k l, Py.get k others = Some l ->
        exists n, href l = "http://testserver/users" ++ "?skip=" ++
                           Py.str_of_int n ++ "&limit=" ++ Py.str_of_int limit).
Proof.
  intros Hl.
  unfold generate_pagination_links; rewrite floordiv_nonzero by lia.
  destruct (Z.ltb_spec (skip + limit) total_items);
  destruct (Z.ltb_spec 0 skip);
  cbn [Py.update Py.set fold_left fst snd String.eqb Ascii.eqb Bool.eqb];
  (eexists; split; [intros; reflexivity|]);
  intros k l; cbn [Py.get];
  repeat (destruct (String.eqb k _);
          [intros E; inversion E; subst; cbn [href];
           first [now exists 0 | eexists; reflexivity]|]);
  discriminate.
Qed.

Lemma pagination_link_names limit n :
  Url.param_names ("http://testserver/users" ++ "?skip=" ++ Py.str_of_int n
                   ++ "&limit=" ++ Py.str_of_int limit)
  = ["skip"; "limit"].
Proof.
  apply read_skip_limit;
    [reflexivity | apply occurs_str_of_int; reflexivity ..].
Qed.

(** With filters the [self] link names a third parameter, so "exactly
    [skip] and [limit]" does not hold of it. *)
Lemma self_link_names_the_filters :
  exists links self,
    generate_pagination_links tt 0 10 25 (Some [("role", Py.Str "ADMIN")])
      = inr links /\
    Py.get "self" links = Some self /\
    href self = "http://testserver/users?skip=0&limit=10&role=ADMIN" /\
    Url.param_names (href self) <> ["skip"; "limit"].
Proof.
  eexists. eexists. split; [reflexivity|]. split; [reflexivity|].
  split; [reflexivity|]. vm_compute. discriminate.
Qed.

(** C5 (as amended).  In every pagination link the query string begins
    [skip=..&limit=..], in that order.  For [first], [last], [next], [prev],
    for [self] when no filters are given, and for links made by
    [create_pagination_link], these are the only parameters; when filters are
    given, the query string of [self] goes on with the filter parameters that
    are not themselves called [skip] or [limit]. *)
Theorem query_begins_skip_then_limit skip limit total_items filters links :
  generate_pagination_links request skip limit total_items filters
    = inr links ->
  exists self a b rest,
    (forall k l, k <> "self" -> Py.get k links = Some l ->
        Url.param_names (href l) = ["skip"; "limit"]) /\
    Py.get "self" links = Some self /\
    query_params skip limit filters = ("skip", a) :: ("limit", b) :: rest /\
    Url.query (href self)
      = Some ("skip=" ++ Py.str a ++ "&limit=" ++ Py.str b ++
              String.concat ""
                (map (fun kv => "&" ++ fst kv ++ "=" ++ Py.str (snd kv)) rest)) /\
    (forall k, In k (Py.keys rest) ->
        k <> "skip" /\ k <> "limit" /\
        exists f, filters = Some f /\ In k (Py.keys f)) /\
    (Py.truthy_dict filters = false ->
        rest = [] /\ Url.param_names (href self) = ["skip"; "limit"]) /\
    (forall rel base_url params pl,
        create_pagination_link rel base_url params = inr pl ->
        exists s l,
          Py.get "skip" params = Some s /\ Py.get "limit" params = Some l /\
          plink_href pl = base_url ++ "?skip=" ++ Py.str s
                          ++ "&limit=" ++ Py.str l).
Proof.
  intros Hret.
  pose proof (returns_nonzero_limit _ _ _ _ _ Hret) as Hl.
  destruct (pagination_links_shape skip limit total_items Hl)
    as (others & Hgen & Hothers).
  rewrite Hgen in Hret. injection Hret as <-.
  (* the shape of query_params *)
  assert (Q : exists a b rest,
    query_params skip limit filters = ("skip", a) :: ("limit", b) :: rest /\
    (forall k, In k (Py.keys rest) ->
        k <> "skip" /\ k <> "limit" /\
        exists f, filters = Some f /\ In k (Py.keys f)) /\
    (Py.truthy_dict filters = false ->
        rest = [] /\ a = Py.Int skip /\ b = Py.Int limit)).
  { unfold query_params. destruct (Py.truthy_dict filters) eqn:T.
    - destruct filters as [f|]; [|discriminate].
      destruct (keys_update f [("skip", Py.Int skip); ("limit", Py.Int limit)])
        as (extra & E & Hx).
      destruct (Py.update _ f) as [|[k1 a] [|[k2 b] rest]];
        try discriminate E.
      cbn in E. inversion E; subst.
      exists a, b, rest. split; [reflexivity|]. split; [|discriminate].
      intros k Hk. destruct (Hx k Hk) as [Hf Hd]. cbn in Hd.
      repeat split; try (intros ->; tauto). exists f. auto.
    - exists (Py.Int skip), (Py.Int limit), []. split; [reflexivity|].
      split; [intros k []|auto]. }
  destruct Q as (a & b & rest & Eq & Hrest & Hnone).
  eexists. exists a, b, rest.
  split.
  { intros k l Hk. cbn [Py.get].
    destruct (String.eqb_spec k "self"); [contradiction|].
    intros Hg. destruct (Hothers k l Hg) as (m & ->).
    apply pagination_link_names. }
  split; [reflexivity|]. split; [exact Eq|].
  cbn [href].
  match goal with
  | |- Url.query ?h = _ /\ _ =>
      change (Url.query h)
        with (Some (String.concat "&"
                      (query_parts (query_params skip limit filters))))
  end.
  rewrite Eq.
  split.
  { f_equal. unfold query_parts. cbn [map fst snd].
    rewrite concat_amp. cbn [map]. rewrite map_map.
    rewrite concat_nil_app. reflexivity. }
  split; [exact Hrest|].
  split.
  { intros T. destruct (Hnone T) as (-> & -> & ->). split; [reflexivity|].
    apply (pagination_link_names limit skip). }
  intros r base params pl. unfold create_pagination_link, getitem.
  destruct (Py.get "skip" params) as [s|]; [|discriminate].
  destruct (Py.get "limit" params) as [l|]; [|discriminate].
  intros E. inversion E; subst. exists s, l. repeat split.
Qed.

End LinkFormat.

Section FiltersAndUserLinks.
Import LinkGeneration.

Context {Request : Type}.
Variable request : Request.

(** C10.  Whenever a call with a non-empty filters dict (a dict, so without
    repeated keys) returns, every filter parameter [k=v] is in the query
    string of [self]; every other link is the one the same call without
    filters returns, and its query string has the parameters [skip] and
    [limit] and nothing else. *)
Theorem filters_reach_self_only skip limit total_items filters links :
  filters <> [] ->
  NoDup (Py.keys filters) ->
  generate_pagination_links request skip limit total_items (Some filters)
    = inr links ->
  exists plain self,
    generate_pagination_links request skip limit total_items None
      = inr plain /\
    Py.get "self" links = Some self /\
    (forall k v, In (k, v) filters ->
        exists pre post,
          Url.query (href self) = Some (pre ++ (k ++ "=" ++ Py.str v) ++ post)) /\
    (forall k, k <> "self" -> Py.get k links = Py.get k plain) /\
    (forall k l, k <> "self" -> Py.get k links = Some l ->
        Url.param_names (href l) = ["skip"; "limit"]).
Proof.
  intros Hne ND Hret.
  pose proof (returns_nonzero_limit _ _ _ _ _ _ Hret) as Hl.
  destruct (pagination_links_shape request skip limit total_items Hl)
    as (others & Hgen & Hothers).
  rewrite Hgen in Hret. injection Hret as <-.
  eexists. eexists.
  split; [apply Hgen|]. split; [reflexivity|].
  split.
  { intros k v Hin. cbn [href].
    match goal with
    | |- context [Url.query ?h] =>
        change (Url.query h)
          with (Some (String.concat "&"
                        (query_parts (query_params skip limit (Some filters)))))
    end.
    destruct (concat_In "&" (k ++ "=" ++ Py.str v)
                (query_parts (query_params skip limit (Some filters))))
      as (pre & post & E).
    - unfold query_parts, query_params.
      destruct filters as [|kv f]; [contradiction|]. cbn [Py.truthy_dict].
      apply (in_map (fun kv => fst kv ++ "=" ++ Py.str (snd kv)) _ (k, v)).
      now apply In_update.
    - exists pre, post. now rewrite E. }
  split.
  { intros k Hk. cbn [Py.get].
    now destruct (String.eqb_spec k "self"). }
  intros k l Hk. cbn [Py.get].
  destruct (String.eqb_spec k "self"); [contradiction|].
  intros Hg. destruct (Hothers k l Hg) as (m & ->).
  apply pagination_link_names.
Qed.

(** C6.  [create_user_links] returns the three links [self], [update] and
    [delete], in that order and no other; each carries its own relation name
    and the target [http://testserver/users/<id>], the identifier written
    the way [str] writes a UUID. *)
Theorem user_links_are_self_update_delete (user_id : UUID) :
  let links := create_user_links user_id request in
  Py.keys links = ["self"; "update"; "delete"] /\
  forall k l, Py.get k links = Some l ->
    rel l = k /\
    href l = "http://testserver" ++ "/users/" ++ uuid_str user_id.
Proof.
  cbn zeta. split; [reflexivity|].
  intros k l. unfold create_user_links. cbn [Py.get].
  destruct (String.eqb_spec k "self") as [->|_];
    [intros E; inversion E; split; reflexivity|].
  destruct (String.eqb_spec k "update") as [->|_];
    [intros E; inversion E; split; reflexivity|].
  destruct (String.eqb_spec k "delete") as [->|_];
    [intros E; inversion E; split; reflexivity|].
  discriminate.
Qed.

End FiltersAndUserLinks.

(** ** The link builder on concrete pages *)

Section LinkExamples.
Import LinkGeneration.

(** First page of 25 items, 10 per page: no [prev]. *)
Example first_page_of_25 :
  generate_pagination_links tt 0 10 25 None
  = inr [ link "self"  "http://testserver/users?skip=0&limit=10";
          link "first" "http://testserver/users?skip=0&limit=10";
          link "last"  "http://testserver/users?skip=20&limit=10";
          link "next"  "http://testserver/users?skip=10&limit=10" ].
Proof. reflexivity. Qed.

(** Last page of 25 items: no [next]. *)
Example last_page_of_25 :
  generate_pagination_links tt 20 10 25 None
  = inr [ link "self"  "http://testserver/users?skip=20&limit=10";
          link "first" "http://testserver/users?skip=0&limit=10";
          link "last"  "http://testserver/users?skip=20&limit=10";
          link "prev"  "http://testserver/users?skip=10&limit=10" ].
Proof. reflexivity. Qed.

(** A zero limit is the one input on which the division raises. *)
Example zero_limit_raises :
  generate_pagination_links tt 0 0 25 None = inl ZeroDivisionError.
Proof. reflexivity. Qed.

Example user_links_of_a_uuid :
  create_user_links {| uuid_int := 0x12345678123456781234567812345678 |} tt
  = [ link "self"
        "http://testserver/users/12345678-1234-5678-1234-567812345678";
      link "update"
        "http://testserver/users/12345678-1234-5678-1234-567812345678";
      link "delete"
        "http://testserver/users/12345678-1234-5678-1234-567812345678" ].
Proof. reflexivity. Qed.

Lemma user_links_of_a_uuid_update :
  Py.get "update"
    (create_user_links
       {| uuid_int := 0x12345678123456781234567812345678 |} tt)
  = Some {| rel := "update";
            href := "http://testserver/users/12345678-1234-5678-1234-567812345678" |}
  /\
  rel {| rel := "update";
         href := "http://testserver/users/12345678-1234-5678-1234-567812345678" |}
  = "update" /\
  href {| rel := "update";
          href := "http://testserver/users/12345678-1234-5678-1234-567812345678" |}
  = "http://testserver" ++ "/users/" ++
    uuid_str {| uuid_int := 0x12345678123456781234567812345678 |}.
Proof.
  split; [reflexivity|].
  apply (proj2 (user_links_are_self_update_delete tt
                  {| uuid_int := 0x12345678123456781234567812345678 |})
               "update").
  reflexivity.
Defined.

Lemma next_prev_presence_at_first_page :
  0 < 10 /\
  exists links,
    generate_pagination_links tt 0 10 25 None = inr links /\
    (Py.mem "next" links = true <-> 0 + 10 < 25) /\
    (Py.mem "prev" links = true <-> 0 < 0).
Proof.
  split; [lia | apply (next_prev_presence tt 0 10 25 None); lia].
Defined.

Lemma pagination_total_at_first_page :
  0 < 10 /\
  exists links,
    (forall request' : unit,
        generate_pagination_links request' 0 10 25 None = inr links) /\
    Py.mem "self" links = true /\
    Py.mem "first" links = true /\
    Py.mem "last" links = true.
Proof.
  split; [lia | apply (pagination_total_with_fixed_links 0 10 25 None); lia].
Defined.

Lemma last_link_offset_at_first_page :
  0 < 10 /\
  exists links last,
    generate_pagination_links tt 0 10 25 None = inr links /\
    Py.get "last" links = Some last /\
    Url.param "skip" (href last)
      = Some (Py.str_of_int (Z.max 0 ((25 - 1) / 10 * 10))) /\
    (25 = 0 -> Url.param "skip" (href last) = Some "0").
Proof.
  split; [lia | apply (last_link_offset tt 0 10 25 None); lia].
Defined.

Lemma filters_reach_self_only_with_role_filter :
  exists links,
    generate_pagination_links tt 10 10 25 (Some [("role", Py.Str "ADMIN")])
      = inr links /\
    exists plain self,
      generate_pagination_links tt 10 10 25 None = inr plain /\
      Py.get "self" links = Some self /\
      (forall k v, In (k, v) [("role", Py.Str "ADMIN")] ->
          exists pre post,
            Url.query (href self)
            = Some (pre ++ (k ++ "=" ++ Py.str v) ++ post)) /\
      (forall k, k <> "self" -> Py.get k links = Py.get k plain) /\
      (forall k l, k <> "self" -> Py.get k links = Some l ->
          Url.param_names (href l) = ["skip"; "limit"]).
Proof.
  eexists. split; [reflexivity|].
  apply (filters_reach_self_only tt 10 10 25 [("role", Py.Str "ADMIN")]).
  - discriminate.
  - repeat constructor. simpl. tauto.
  - reflexivity.
Defined.

Lemma query_begins_skip_then_limit_with_role_filter :
  exists links,
    generate_pagination_links tt 10 10 25 (Some [("role", Py.Str "ADMIN")])
      = inr links /\
    exists self a b rest,
      (forall k l, k <> "self" -> Py.get k links = Some l ->
          Url.param_names (href l) = ["skip"; "limit"]) /\
      Py.get "self" links = Some self /\
      query_params 10 10 (Some [("role", Py.Str "ADMIN")])
        = ("skip", a) :: ("limit", b) :: rest /\
      Url.query (href self)
        = Some ("skip=" ++ Py.str a ++ "&limit=" ++ Py.str b ++
                String.concat ""
                  (map (fun kv => "&" ++ fst kv ++ "=" ++ Py.str (snd kv))
                       rest)) /\
      (forall k, In k (Py.keys rest) ->
          k <> "skip" /\ k <> "limit" /\
          exists f, Some [("role", Py.Str "ADMIN")] = Some f /\
                    In k (Py.keys f)) /\
      (Py.truthy_dict (Some [("role", Py.Str "ADMIN")]) = false ->
          rest = [] /\ Url.param_names (href self) = ["skip"; "limit"]) /\
      (forall rel base_url params pl,
          create_pagination_link rel base_url params = inr pl ->
          exists s l,
            Py.get "skip" params = Some s /\ Py.get "limit" params = Some l /\
            plink_href pl = base_url ++ "?skip=" ++ Py.str s
                            ++ "&limit=" ++ Py.str l).
Proof.
  eexists. split; [reflexivity|].
  apply (query_begins_skip_then_limit tt 10 10 25
           (Some [("role", Py.Str "ADMIN")])).
  reflexivity.
Defined.

End LinkExamples.

(* ===================================================================== *)
(** * Properties of the [login] and [register] handlers *)
(* ===================================================================== *)

Section HandlerFacts.
Import UserRoutes.

Context {Request EmailService Session : Type}.
Variable user_service : UserService Session EmailService.
Variable str_exn : exn -> string.
Variable access_token_expire_minutes now : Z.
Variable sign : Py.dict Py.value -> string.

#[local] Notation "'login'" :=
  (UserRoutes.login user_service access_token_expire_minutes now sign)
  (only parsing).
#[local] Notation "'register'" :=
  (@UserRoutes.register Request _ _ user_service str_exn) (only parsing).

(** Unfold a handler down to the calls on the user service. *)
Ltac run_handler :=
  unfold UserRoutes.login, UserRoutes.register, login_body, register_body,
    try_except, bind, raise, ret, truthy, user_response.

(** C8.  [login] asks first whether the account is locked and, if so, fails
    with the locked-account error without going on to the credentials (the
    session is the one the lock check left); with the account not locked it
    fails with 401 when the credentials authenticate nobody, and otherwise
    returns an access token of type [bearer]. *)
Theorem login_locked_then_unauthorized_then_token form_data s :
  (forall s1,
      is_account_locked user_service (username form_data) s = (inr true, s1) ->
      login form_data s
      = (inl (HTTPException 400
                "Account locked due to too many failed login attempts."), s1))
  /\
  (forall s1 s2,
      is_account_locked user_service (username form_data) s = (inr false, s1) ->
      login_user user_service (username form_data) (password form_data) s1
        = (inr None, s2) ->
      login form_data s
      = (inl (HTTPException 401 "Incorrect email or password"), s2))
  /\
  (forall s1 s2 user,
      is_account_locked user_service (username form_data) s = (inr false, s1) ->
      login_user user_service (username form_data) (password form_data) s1
        = (inr (Some user), s2) ->
      exists token,
        login form_data s
        = (inr {| access_token := token; token_type := "bearer" |}, s2)).
Proof.
  repeat split.
  - intros s1 H. run_handler. rewrite H. reflexivity.
  - intros s1 s2 H1 H2. run_handler. rewrite H1, H2. reflexivity.
  - intros s1 s2 user H1 H2. run_handler. rewrite H1, H2.
    eexists. reflexivity.
Qed.

(** C7.  A token returned by [login] carries the claims [sub], the email of
    the user the credentials authenticated, and [role], the name of that
    user's role, followed by the expiry claim: the issuing time plus the
    configured number of minutes; and nothing else. *)
Theorem login_token_claims form_data s response s' :
  login form_data s = (inr response, s') ->
  exists user s1,
    is_account_locked user_service (username form_data) s = (inr false, s1) /\
    login_user user_service (username form_data) (password form_data) s1
      = (inr (Some user), s') /\
    payload (access_token response)
      = [ ("sub", Py.Str (email user));
          ("role", Py.Str (name (role user)));
          ("exp", Py.Int (now + 60 * access_token_expire_minutes)) ] /\
    Py.get "role" (payload (access_token response))
      = Some (Py.Str (name (role user))) /\
    token_type response = "bearer".
Proof.
  run_handler.
  destruct (is_account_locked user_service (username form_data) s)
    as [[e|[|]] s1] eqn:L;
    try (destruct e; discriminate); try discriminate.
  destruct (login_user user_service (username form_data)
              (password form_data) s1) as [[e|[user|]] s2] eqn:U;
    try (destruct e; discriminate); try discriminate.
  intros E. inversion E; subst. exists user, s1.
  repeat split; assumption.
Qed.

(** Whatever the user service does, a sign-up whose email is found does not
    reach [create], and the 400 raised for it is caught by the handler's own
    [except Exception] and replaced by a 500. *)
Lemma register_known_email user_data request email_service s existing s1 :
  get_by_email user_service (uc_email user_data) s = (inr (Some existing), s1) ->
  register user_data request email_service s
  = (inl (HTTPException 500
            (str_exn (HTTPException 400 "Email already registered"))), s1).
Proof.
  intros H. run_handler. rewrite H. reflexivity.
Qed.

End HandlerFacts.

Section HandlerRuns.
Import UserRoutes.

(** C3 (the behaviour of the code).  Signing up again with Alice's email
    leaves the store with its single record, but the caller gets status 500
    with the text of the 400 as detail, not the 400 the handler raised. *)
Theorem register_duplicate_email_answers_500 :
  register memory_service starlette_str second_signup tt tt store_with_alice
  = (inl (HTTPException 500 "400: Email already registered"),
     store_with_alice).
Proof. reflexivity. Qed.

(** [login], by contrast, lets its own [HTTPException]s through. *)
Example login_wrong_password_answers_401 :
  login memory_service 30 1000 toy_sign bad_form store_with_alice
  = (inl (HTTPException 401 "Incorrect email or password"), store_with_alice).
Proof. reflexivity. Qed.

Example login_locked_answers_400 :
  login memory_service 30 1000 toy_sign good_form store_with_alice_locked
  = (inl (HTTPException 400
            "Account locked due to too many failed login attempts."),
     store_with_alice_locked).
Proof. reflexivity. Qed.

Example login_good_password_answers_token :
  login memory_service 30 1000 toy_sign good_form store_with_alice
  = (inr {| access_token :=
              {| payload := [ ("sub", Py.Str "alice@example.com");
                              ("role", Py.Str "AUTHENTICATED");
                              ("exp", Py.Int 2800) ];
                 signature := "alice@example.com.AUTHENTICATED.2800" |};
            token_type := "bearer" |},
     store_with_alice).
Proof. reflexivity. Qed.

Lemma login_outcomes_on_alice :
  login memory_service 30 1000 toy_sign good_form store_with_alice_locked
  = (inl (HTTPException 400
            "Account locked due to too many failed login attempts."),
     store_with_alice_locked)
  /\
  login memory_service 30 1000 toy_sign bad_form store_with_alice
  = (inl (HTTPException 401 "Incorrect email or password"), store_with_alice)
  /\
  exists token,
    login memory_service 30 1000 toy_sign good_form store_with_alice
    = (inr {| access_token := token; token_type := "bearer" |},
       store_with_alice).
Proof.
  split; [|split].
  - apply (login_locked_then_unauthorized_then_token
             memory_service 30 1000 toy_sign good_form
             store_with_alice_locked).
    reflexivity.
  - apply (login_locked_then_unauthorized_then_token
             memory_service 30 1000 toy_sign bad_form store_with_alice)
      with (s1 := store_with_alice); reflexivity.
  - apply (login_locked_then_unauthorized_then_token
             memory_service 30 1000 toy_sign good_form store_with_alice)
      with (s1 := store_with_alice) (user := alice); reflexivity.
Defined.

Lemma login_token_claims_of_alice :
  exists response,
    login memory_service 30 1000 toy_sign good_form store_with_alice
      = (inr response, store_with_alice) /\
    exists user s1,
      is_account_locked memory_service (username good_form) store_with_alice
        = (inr false, s1) /\
      login_user memory_service (username good_form) (password good_form) s1
        = (inr (Some user), store_with_alice) /\
      payload (access_token response)
        = [ ("sub", Py.Str (email user));
            ("role", Py.Str (name (role user)));
            ("exp", Py.Int (1000 + 60 * 30)) ] /\
      Py.get "role" (payload (access_token response))
        = Some (Py.Str (name (role user))) /\
      token_type response = "bearer".
Proof.
  eexists. split; [reflexivity|].
  apply (login_token_claims memory_service 30 1000 toy_sign good_form
           store_with_alice _ store_with_alice).
  reflexivity.
Defined.

End HandlerRuns.

(* ===================================================================== *)
(** * Properties of the mail dispatcher *)
(* ===================================================================== *)

Section Dispatcher.
Import SmtpConnection.

Variable str_exn : exn -> string.

(** Split a run on everything the control flow can depend on. *)
Ltac dispatch_cases server self content html_content :=
  destruct server as [oc ot ol os oq], self as [h p u pw tls];
  destruct html_content as [[|? ?]|], content as [?|];
  destruct oc, ot, ol, os, tls;
  destruct oq as [? ?|[?|?|?|? ?]];
  cbn [on_connect on_starttls on_login on_send_message on_quit];
  try match goal with
      | |- context [?code =? 221] => destruct (Z.eqb_spec code 221)
      end.

(** Point at the operation whose exception reached the caller. *)
Ltac pick_failure :=
  first [ left; solve [repeat split; first [reflexivity | eexists; reflexivity]]
        | right; pick_failure
        | solve [do 2 eexists; repeat split; first [reflexivity | assumption]] ].

(** C9.  One call of [send_email], started with no session open, against a
    server that may fail at any operation:
    - ends with no session open, and has closed the one it opened;
    - returns normally only if the message could be built and every
      operation succeeded; otherwise it logs one error and raises, and what
      it raises is the exception of one of the operations that failed;
    - connects at most once and hands over the message at most once (there
      is no second attempt), and does each exactly once when everything
      before it succeeded. *)
Theorem send_email_releases_propagates_tries_once
    server self subject content html_content recipient :
  let run := send_email server str_exn self subject content html_content
               recipient idle in
  let built := py_or html_content content in
  (* release *)
  session_open (snd run) = false /\
  (built <> None -> on_connect server = None ->
     count is_close (trace (snd run)) = 1%nat) /\
  (* propagation *)
  (fst run = inr tt <->
     built <> None /\ on_connect server = None /\
     (use_tls self = true -> on_starttls server = None) /\
     on_login server = None /\ on_send_message server = None /\
     quit_clean (on_quit server) = true) /\
  (forall e, fst run = inl e ->
     (built = None /\ exists m, e = AttributeError m) \/
     on_connect server = Some e \/
     (use_tls self = true /\ on_starttls server = Some e) \/
     on_login server = Some e \/
     on_send_message server = Some e \/
     on_quit server = QuitRaises e \/
     (exists code m, on_quit server = QuitReply code m /\ code <> 221 /\
                     e = SMTPResponseException code m)) /\
  (count is_log_error (trace (snd run))
   = match fst run with inl _ => 1%nat | inr _ => 0%nat end) /\
  (* a single attempt *)
  (count is_connect (trace (snd run)) <= 1)%nat /\
  (count is_send (trace (snd run)) <= 1)%nat /\
  (built <> None -> count is_connect (trace (snd run)) = 1%nat) /\
  (built <> None -> on_connect server = None ->
     (use_tls self = true -> on_starttls server = None) ->
     on_login server = None ->
     count is_send (trace (snd run)) = 1%nat).
Proof.
  cbv zeta. unfold send_email, with_SMTP, SMTP_exit, quit_clean.
  dispatch_cases server self content html_content; cbn.
  all: repeat match goal with |- _ /\ _ => split end.
  all: try reflexivity; try lia.
  all: try (intros; first [reflexivity | congruence | discriminate]).
  all: try (intros;
            match goal with
            | H : true = true -> _ |- _ =>
                specialize (H eq_refl); discriminate H
            end).
  all: try (split;
            [ intros E; first [discriminate E | repeat split; congruence]
            | intros (? & ? & ? & ? & ? & ?);
              first [reflexivity | congruence | discriminate
                    | match goal with H : true = true -> _ |- _ =>
                        specialize (H eq_refl); discriminate H end] ]).
  all: intros e' E; inversion E; subst; pick_failure.
Qed.

End Dispatcher.

Section DispatcherRuns.
Import SmtpConnection.

(** A delivery that goes through. *)
Example send_email_delivered :
  send_email healthy exn_text example_client "Verify Your Account"
    None (Some "<p>Hello</p>") (Some "bob@example.com") idle
  = (inr tt,
     {| trace :=
          [ Connect "smtp.example.com" 587; StartTLS; Login "user" "pass";
            SendMessage {| msg_subject := "Verify Your Account";
                           msg_from := "user";
                           msg_to := Some "bob@example.com";
                           msg_payload := ["<p>Hello</p>"] |};
            Quit; Close; LogInfo "Email sent to bob@example.com" ];
        session_open := false |}).
Proof. reflexivity. Qed.

(** Refused credentials: the session is still closed, the error is logged
    and raised again, and nothing is tried a second time. *)
Example send_email_login_refused :
  send_email login_refused exn_text example_client "Verify Your Account"
    None (Some "<p>Hello</p>") (Some "bob@example.com") idle
  = (inl (SMTPResponseException 535 "Authentication failed"),
     {| trace :=
          [ Connect "smtp.example.com" 587; StartTLS; Login "user" "pass";
            Quit; Close;
            LogError "Failed to send email: Authentication failed" ];
        session_open := false |}).
Proof. reflexivity. Qed.

Lemma send_email_once_on_healthy_server :
  let run := send_email healthy exn_text example_client "Verify Your Account"
               None (Some "<p>Hello</p>") (Some "bob@example.com") idle in
  session_open (snd run) = false /\
  count is_close (trace (snd run)) = 1%nat /\
  fst run = inr tt /\
  count is_connect (trace (snd run)) = 1%nat /\
  count is_send (trace (snd run)) = 1%nat.
Proof.
  pose proof (send_email_releases_propagates_tries_once exn_text
                healthy example_client "Verify Your Account"
                None (Some "<p>Hello</p>") (Some "bob@example.com"))
    as (H1 & H2 & H3 & _ & _ & _ & _ & H7 & H8).
  cbv zeta.
  split; [exact H1|].
  split; [apply H2; [discriminate | reflexivity]|].
  split; [apply H3; repeat split; discriminate|].
  split; [apply H7; discriminate|].
  apply H8; [discriminate | reflexivity | reflexivity | reflexivity].
Defined.

End DispatcherRuns.

(* ===================================================================== *)
(** * Further properties: links, mail, handlers *)
(* ===================================================================== *)

Section DictLookup.
Context {V : Type}.
Implicit Types (d f : Py.dict V) (k : string) (v : V).

Lemma get_set d k k' v :
  Py.get k (Py.set d k' v) = if String.eqb k k' then Some v else Py.get k d.
Proof.
  induction d as [|[k0 v0] d IH]; cbn [Py.set Py.get].
  - destruct (String.eqb k k'); reflexivity.
  - destruct (String.eqb_spec k' k0) as [->|Hn]; cbn [Py.get].
    + destruct (String.eqb k k0); reflexivity.
    + destruct (String.eqb_spec k k0) as [->|Hn'].
      * destruct (String.eqb_spec k0 k'); [congruence | reflexivity].
      * exact IH.
Qed.

Lemma get_None_keys k d : Py.get k d = None <-> ~ In k (Py.keys d).
Proof.
  rewrite <- mem_In. unfold Py.mem. destruct (Py.get k d); split; congruence.
Qed.

(** Looking a key up after [d.update(f)]: the value [f] gives it, or else
    the one [d] had. *)
Lemma get_update f : NoDup (Py.keys f) -> forall d k,
  Py.get k (Py.update d f)
  = match Py.get k f with Some v => Some v | None => Py.get k d end.
Proof.
  induction f as [|[k' v'] f IH]; intros ND d k; [reflexivity|].
  cbn in ND. inversion ND as [|? ? Hn ND']; subst.
  change (Py.update d ((k', v') :: f)) with (Py.update (Py.set d k' v') f).
  rewrite (IH ND'), get_set. cbn [Py.get].
  destruct (String.eqb_spec k k') as [->|Hk].
  - apply get_None_keys in Hn. now rewrite Hn.
  - reflexivity.
Qed.

End DictLookup.

Section LinkBuilderMore.
Import LinkGeneration LinkGenerationMore.

Context {Request : Type}.
Variable request : Request.

(** The dict a call with a non-zero limit returns, written out. *)
Lemma pagination_links_explicit skip limit total_items filters :
  limit <> 0 ->
  generate_pagination_links request skip limit total_items filters
  = inr (link "self"
           ("http://testserver/users" ++ "?" ++
            String.concat "&" (query_parts (query_params skip limit filters)))
         :: users_link "first" 0 limit
         :: users_link "last"
              (Z.max 0 ((total_items - 1) / limit * limit)) limit
         :: ((if skip + limit <? total_items
              then [users_link "next" (skip + limit) limit] else [])
             ++ (if 0 <? skip
                 then [users_link "prev" (Z.max 0 (skip - limit)) limit]
                 else []))%list).
Proof.
  intros Hl. unfold generate_pagination_links.
  rewrite floordiv_nonzero by assumption.
  destruct (skip + limit <? total_items); destruct (0 <? skip); reflexivity.
Qed.

Lemma read_users_link r n limit :
  Url.param "skip" (href (snd (users_link r n limit)))
    = Some (Py.str_of_int n) /\
  Url.param "limit" (href (snd (users_link r n limit)))
    = Some (Py.str_of_int limit).
Proof.
  apply (read_skip_limit "http://testserver/users");
    [reflexivity | apply occurs_str_of_int; reflexivity ..].
Qed.

(** X1.  [generate_pagination_links] raises exactly when [limit] is zero, and
    what it raises then is [ZeroDivisionError]; any other limit, negative
    ones included, gives links. *)
Theorem pagination_raises_only_on_zero_limit skip limit total_items filters :
  (generate_pagination_links request skip limit total_items filters
     = inl ZeroDivisionError <-> limit = 0) /\
  ((exists links,
       generate_pagination_links request skip limit total_items filters
         = inr links) <-> limit <> 0).
Proof.
  destruct (Z.eq_dec limit 0) as [->|Hn].
  - split; split; try reflexivity; try congruence.
    intros [links H]. discriminate H.
  - rewrite (pagination_links_explicit _ _ _ _ Hn).
    split; split; try congruence; try discriminate.
    intros _. eexists. reflexivity.
Qed.

(** X2.  With at least one item and [limit > 0], the offset of the [last]
    link is a multiple of [limit] and the page starting there holds the final
    item: [offset < total_items <= offset + limit]. *)
Theorem last_page_holds_the_final_item skip limit total_items filters :
  0 < limit -> 0 < total_items ->
  exists links last offset,
    generate_pagination_links request skip limit total_items filters
      = inr links /\
    Py.get "last" links = Some last /\
    Url.param "skip" (href last) = Some (Py.str_of_int offset) /\
    offset mod limit = 0 /\
    0 <= offset < total_items /\
    total_items <= offset + limit.
Proof.
  intros Hl Ht.
  rewrite pagination_links_explicit by lia.
  eexists. eexists. exists (Z.max 0 ((total_items - 1) / limit * limit)).
  split; [reflexivity|]. split; [reflexivity|].
  split; [apply read_users_link|].
  pose proof (Z.div_mod (total_items - 1) limit ltac:(lia)) as D.
  pose proof (Z.mod_pos_bound (total_items - 1) limit Hl) as B.
  assert (0 <= (total_items - 1) / limit) by (apply Z.div_pos; lia).
  rewrite Z.max_r by nia.
  split; [apply Z.mod_mul; lia|]. nia.
Qed.


(** X4.  On a page boundary ([skip] a non-negative multiple of
    [limit > 0]) there is a [next] link exactly when [skip] is before the
    offset of the [last] link. *)
Theorem aligned_page_has_next_iff_before_last skip limit total_items filters :
  0 < limit -> 0 <= skip -> skip mod limit = 0 ->
  exists links,
    generate_pagination_links request skip limit total_items filters
      = inr links /\
    (Py.mem "next" links = true
     <-> skip < Z.max 0 ((total_items - 1) / limit * limit)).
Proof.
  intros Hl Hs Ha. rewrite pagination_links_explicit by lia.
  eexists. split; [reflexivity|].
  assert (E : skip + limit < total_items
              <-> skip < Z.max 0 ((total_items - 1) / limit * limit)).
  { pose proof (Z.div_mod (total_items - 1) limit ltac:(lia)) as D.
    pose proof (Z.mod_pos_bound (total_items - 1) limit Hl) as B.
    pose proof (Z.div_mod skip limit ltac:(lia)) as Ds. rewrite Ha in Ds.
    set (q := (total_items - 1) / limit) in *.
    set (k := skip / limit) in *.
    split; intros H.
    - assert (k < q) by nia. nia.
    - assert (k < q) by nia. nia. }
  rewrite <- E. unfold Py.mem.
  destruct (Z.ltb_spec (skip + limit) total_items);
    destruct (0 <? skip); cbn; split; intros; solve [lia | congruence].
Qed.

End LinkBuilderMore.

Section LinkBuilderFilters.
Import LinkGeneration LinkGenerationMore.

Context {Request : Type}.
Variable request : Request.

(** X5.  A filter takes precedence over the page parameters in the [self]
    link: after the update each filter key has the filter's value, also when
    the key is [skip] or [limit]; those two keep the arguments' values only
    when the filters do not name them. *)
Theorem filter_named_like_a_page_parameter_wins
    skip limit total_items filters links :
  filters <> [] ->
  NoDup (Py.keys filters) ->
  generate_pagination_links request skip limit total_items (Some filters)
    = inr links ->
  exists self,
    Py.get "self" links = Some self /\
    Url.query (href self)
      = Some (String.concat "&"
                (query_parts (query_params skip limit (Some filters)))) /\
    (forall k v, Py.get k filters = Some v ->
        Py.get k (query_params skip limit (Some filters)) = Some v) /\
    (Py.get "skip" filters = None ->
        Py.get "skip" (query_params skip limit (Some filters))
        = Some (Py.Int skip)) /\
    (Py.get "limit" filters = None ->
        Py.get "limit" (query_params skip limit (Some filters))
        = Some (Py.Int limit)).
Proof.
  intros Hne ND Hret.
  pose proof (returns_nonzero_limit _ _ _ _ _ _ Hret) as Hl.
  rewrite pagination_links_explicit in Hret by assumption.
  injection Hret as <-.
  eexists. split; [reflexivity|]. split; [reflexivity|].
  assert (Q : query_params skip limit (Some filters)
              = Py.update [("skip", Py.Int skip); ("limit", Py.Int limit)]
                  filters).
  { unfold query_params. destruct filters; [contradiction | reflexivity]. }
  rewrite Q. repeat split.
  - intros k v H. rewrite get_update, H by assumption. reflexivity.
  - intros H. rewrite get_update, H by assumption. reflexivity.
  - intros H. rewrite get_update, H by assumption. reflexivity.
Qed.

(** X6.  Every link of [generate_pagination_links] other than [self] is
    the link [create_pagination_link] builds for the same relation, the users
    collection and some offset with the call's limit. *)
Theorem page_links_are_pagination_links skip limit total_items filters links :
  generate_pagination_links request skip limit total_items filters
    = inr links ->
  forall k l, k <> "self" -> Py.get k links = Some l ->
    exists n pl,
      create_pagination_link k "http://testserver/users"
        [("skip", Py.Int n); ("limit", Py.Int limit)] = inr pl /\
      plink_rel pl = rel l /\ plink_href pl = href l.
Proof.
  intros Hret k l Hk.
  pose proof (returns_nonzero_limit _ _ _ _ _ _ Hret) as Hl.
  rewrite pagination_links_explicit in Hret by assumption.
  injection Hret as <-.
  assert (P : forall r n l,
             Some (snd (users_link r n limit)) = Some l ->
             exists n pl,
               create_pagination_link r "http://testserver/users"
                 [("skip", Py.Int n); ("limit", Py.Int limit)] = inr pl /\
               plink_rel pl = rel l /\ plink_href pl = href l).
  { intros r n l0 E. injection E as <-. exists n. eexists.
    split; [reflexivity|]. split; reflexivity. }
  cbn [Py.get link fst snd].
  destruct (String.eqb_spec k "self"); [contradiction|].
  unfold users_link at 1 2. cbn [link fst snd].
  destruct (String.eqb_spec k "first") as [->|_]; [apply P|].
  destruct (String.eqb_spec k "last") as [->|_]; [apply P|].
  destruct (skip + limit <? total_items); destruct (0 <? skip);
    cbn [List.app Py.get users_link link fst snd];
    repeat (match goal with
            | |- context [String.eqb k ?s] =>
                destruct (String.eqb_spec k s) as [->|_]; [apply P|]
            end);
    discriminate.
Qed.

End LinkBuilderFilters.

Section VerificationLink.
Import LinkGeneration.


(** An ampersand in the token ends the parameter. *)
Example verification_link_breaks_at_ampersand :
  Url.param "token" (create_verification_link "a&b") = Some "a".
Proof. reflexivity. Qed.

End VerificationLink.

Section UuidText.
Import LinkGeneration.

Lemma string_app_inj (a a' b b' : string) :
  String.length a = String.length a' -> a ++ b = a' ++ b' -> a = a' /\ b = b'.
Proof.
  revert a'. induction a as [|c a IH]; intros [|c' a']; cbn; try discriminate.
  - auto.
  - intros L E. injection L as L. injection E as -> E.
    destruct (IH a' L E) as [-> ->]. auto.
Qed.

Lemma hex_fixed_app n : forall z acc,
  hex_fixed n z acc = hex_fixed n z "" ++ acc.
Proof.
  induction n as [|n IH]; intros z acc; cbn [hex_fixed]; [reflexivity|].
  rewrite (IH _ (String _ acc)), (IH _ (String _ "")).
  rewrite append_assoc. reflexivity.
Qed.

Lemma length_append (a b : string) :
  String.length (a ++ b) = (String.length a + String.length b)%nat.
Proof. induction a; cbn; congruence. Qed.

Lemma hex_fixed_length n : forall z, String.length (hex_fixed n z "") = n.
Proof.
  induction n as [|n IH]; intros z; cbn [hex_fixed]; [reflexivity|].
  rewrite hex_fixed_app, length_append, IH. cbn. lia.
Qed.

Lemma hex_digit_inj a b :
  0 <= a < 16 -> 0 <= b < 16 -> hex_digit a = hex_digit b -> a = b.
Proof.
  intros Ha Hb.
  assert (A : In a [0;1;2;3;4;5;6;7;8;9;10;11;12;13;14;15]) by (cbn; lia).
  assert (B : In b [0;1;2;3;4;5;6;7;8;9;10;11;12;13;14;15]) by (cbn; lia).
  cbn in A, B.
  repeat (destruct A as [<-|A]; [repeat (destruct B as [<-|B];
            [first [reflexivity | discriminate]|]); destruct B|]).
  destruct A.
Qed.

Lemma hex_fixed_inj n : forall z z',
  hex_fixed n z "" = hex_fixed n z' "" -> z mod 16 ^ Z.of_nat n = z' mod 16 ^ Z.of_nat n.
Proof.
  induction n as [|n IH]; intros z z' E.
  - cbn. now rewrite !Z.mod_1_r.
  - cbn [hex_fixed] in E.
    rewrite (hex_fixed_app n (z / 16)), (hex_fixed_app n (z' / 16)) in E.
    apply string_app_inj in E; [|now rewrite !hex_fixed_length].
    destruct E as [E D]. injection D as D.
    apply IH in E.
    apply hex_digit_inj in D; try (apply Z.mod_pos_bound; lia).
    rewrite Nat2Z.inj_succ, Z.pow_succ_r by lia.
    rewrite (Z.rem_mul_r z), (Z.rem_mul_r z') by lia.
    congruence.
Qed.

(** Putting the hyphens in loses nothing. *)
Lemma grouping_inj (s t : string) :
  String.length s = 32%nat -> String.length t = 32%nat ->
  substring 0 8 s ++ "-" ++ substring 8 4 s ++ "-" ++ substring 12 4 s ++ "-"
    ++ substring 16 4 s ++ "-" ++ substring 20 12 s
  = substring 0 8 t ++ "-" ++ substring 8 4 t ++ "-" ++ substring 12 4 t ++ "-"
    ++ substring 16 4 t ++ "-" ++ substring 20 12 t ->
  s = t.
Proof.
  intros Ls Lt.
  do 33 (destruct s as [|? s]; try discriminate Ls).
  do 33 (destruct t as [|? t]; try discriminate Lt).
  cbn. intros E. inversion E. reflexivity.
Qed.

(** Two UUIDs written the same are the same. *)
Lemma uuid_str_inj (a b : UUID) :
  0 <= uuid_int a < 2 ^ 128 -> 0 <= uuid_int b < 2 ^ 128 ->
  uuid_str a = uuid_str b -> a = b.
Proof.
  intros Ha Hb E. unfold uuid_str in E. cbv zeta in E.
  apply grouping_inj in E; try apply hex_fixed_length.
  apply hex_fixed_inj in E.
  change (16 ^ Z.of_nat 32) with (2 ^ 128) in E.
  rewrite !Z.mod_small in E by assumption.
  destruct a, b. cbn in E. congruence.
Qed.

Context {Request : Type}.

(** X8.  The links of two users (UUIDs in the 128-bit range) have the same
    target only when the users are the same. *)
Theorem user_links_tell_users_apart (a b : UUID) (ra rb : Request) la lb :
  0 <= uuid_int a < 2 ^ 128 -> 0 <= uuid_int b < 2 ^ 128 ->
  Py.get "self" (create_user_links a ra) = Some la ->
  Py.get "self" (create_user_links b rb) = Some lb ->
  href la = href lb ->
  a = b.
Proof.
  intros Ha Hb Ea Eb E. cbn in Ea, Eb.
  injection Ea as <-. injection Eb as <-. cbn [href] in E.
  apply uuid_str_inj; try assumption.
  apply (string_app_inj "http://testserver/users/" "http://testserver/users/"
           (uuid_str a) (uuid_str b) eq_refl) in E.
  tauto.
Qed.

End UuidText.

Section DispatcherMore.
Import SmtpConnection SmtpConnectionMore.

Variable str_exn : exn -> string.

(** Split a run of [send_email] on the message body and on every answer of
    the server. *)
Ltac run_cases server self :=
  cbv zeta; unfold send_email, with_SMTP, SMTP_exit;
  destruct server as [oc ot ol os oq], self as [h p u pw tls];
  cbn [on_connect on_starttls on_login on_send_message on_quit use_tls
       smtp_host smtp_port smtp_user smtp_pass];
  destruct (py_or _ _);
  destruct oc, ot, ol, os, tls;
  destruct oq as [? ?|[?|?|?|? ?]];
  try match goal with
      | |- context [?code =? 221] => destruct (Z.eqb_spec code 221)
      end;
  cbn.

(** X9.  [SMTPClient.send_email] presents the credentials only on a
    connection that was made and, when TLS is asked for, only after
    [starttls] succeeded; it hands the message over only after the login
    succeeded; without [use_tls] it never starts TLS. *)
Theorem credentials_follow_tls_and_message_follows_login
    server self subject content html_content recipient :
  let run := send_email server str_exn self subject content html_content
               recipient idle in
  ((0 < count is_login (trace (snd run)))%nat ->
     py_or html_content content <> None /\
     on_connect server = None /\
     (use_tls self = true ->
        on_starttls server = None /\
        count is_starttls (trace (snd run)) = 1%nat)) /\
  ((0 < count is_send (trace (snd run)))%nat ->
     on_login server = None /\
     count is_login (trace (snd run)) = 1%nat) /\
  (use_tls self = false -> count is_starttls (trace (snd run)) = 0%nat).
Proof.
  run_cases server self.
  all: repeat split; intros; try lia; try discriminate; try reflexivity.
Qed.

(** [html_content or content], case by case. *)
Lemma py_or_cases html_content content body :
  py_or html_content content = Some body ->
  (html_content = Some body /\ body <> "") \/
  ((html_content = None \/ html_content = Some "") /\ content = Some body).
Proof.
  destruct html_content as [[|c h]|]; cbn [py_or]; intros E.
  - right. auto.
  - left. injection E as <-. split; [reflexivity | discriminate].
  - right. auto.
Qed.

(** Whatever the server does, a message that reaches the transport is the
    one built from the arguments. *)
Lemma sent_message_shape
    server self subject content html_content recipient m :
  In (SendMessage m)
     (trace (snd (send_email server str_exn self subject content html_content
                    recipient idle))) ->
  exists body,
    py_or html_content content = Some body /\
    m = {| msg_subject := subject;
           msg_from := smtp_user self;
           msg_to := recipient;
           msg_payload := [body] |}.
Proof.
  run_cases server self.
  all: intros H;
    repeat (destruct H as [H|H]; [try discriminate H|]);
    try contradiction.
  all: injection H as <-; eexists; split; reflexivity.
Qed.

(** X10.  A message that reaches the transport has the given subject, the
    client's user as sender, the given recipient, and one part: the
    [html_content] when that is a non-empty string, otherwise the
    [content]. *)
Theorem only_the_html_or_else_the_content_is_sent
    server self subject content html_content recipient m :
  In (SendMessage m)
     (trace (snd (send_email server str_exn self subject content html_content
                    recipient idle))) ->
  exists body,
    m = {| msg_subject := subject;
           msg_from := smtp_user self;
           msg_to := recipient;
           msg_payload := [body] |} /\
    ((html_content = Some body /\ body <> "") \/
     ((html_content = None \/ html_content = Some "") /\
      content = Some body)).
Proof.
  intros H. apply sent_message_shape in H as (body & B & ->).
  exists body. split; [reflexivity|]. now apply py_or_cases.
Qed.

(** X11.  A call that returns has performed, in this order and nothing
    else: connect, [starttls] when asked for, login, send, quit, close, and
    the info log line.  A call that raises ends with exactly the error log
    line for the exception raised and has logged no success. *)
Theorem delivery_is_the_whole_exchange_in_order
    server self subject content html_content recipient :
  let run := send_email server str_exn self subject content html_content
               recipient idle in
  (fst run = inr tt ->
     exists body,
       py_or html_content content = Some body /\
       trace (snd run)
       = (Connect (smtp_host self) (smtp_port self)
          :: (if use_tls self then [StartTLS] else [])
          ++ [ Login (smtp_user self) (smtp_pass self);
               SendMessage {| msg_subject := subject;
                              msg_from := smtp_user self;
                              msg_to := recipient;
                              msg_payload := [body] |};
               Quit; Close;
               LogInfo ("Email sent to " ++ str_opt recipient) ])%list) /\
  (forall e, fst run = inl e ->
     exists before,
       trace (snd run)
       = (before ++ [LogError ("Failed to send email: " ++ str_exn e)])%list /\
       forall text, ~ In (LogInfo text) before).
Proof.
  run_cases server self.
  all: split; [intros E; try discriminate E; eexists; split; reflexivity|].
  all: intros e' E; try discriminate E; inversion E; subst.
  all: match goal with
       | |- exists before, ?l = _ /\ _ => exists (removelast l)
       end;
    split;
    [ reflexivity
    | cbn; intros text H;
      repeat (destruct H as [H|H]; [discriminate H|]); exact H ].
Qed.

End DispatcherMore.

Section LegacyConnection.
Import SmtpConnection SmtpConnectionMore.

Variable str_exn : exn -> string.

(** X12.  [SMTPConnection.send_email] never delivers: every call raises,
    no login and no message reach the transport, and the session is closed
    again.  It starts TLS on every connection it gets, and when connecting,
    TLS and quitting all go well it raises the [AttributeError] for
    [self.username], an attribute [__init__] never sets. *)
Theorem smtp_connection_never_delivers
    server (self : SMTPConnectionClass.SMTPConnection)
    subject content recipient :
  let run := SMTPConnectionClass.send_email server str_exn self subject
               content recipient idle in
  (exists e, fst run = inl e) /\
  count is_login (trace (snd run)) = 0%nat /\
  count is_send (trace (snd run)) = 0%nat /\
  session_open (snd run) = false /\
  (on_connect server = None ->
     count is_starttls (trace (snd run)) = 1%nat) /\
  (on_connect server = None -> on_starttls server = None ->
     quit_clean (on_quit server) = true ->
     fst run
     = inl (AttributeError
              "'SMTPConnection' object has no attribute 'username'")).
Proof.
  cbv zeta.
  unfold SMTPConnectionClass.send_email, with_SMTP, SMTP_exit, quit_clean.
  destruct server as [oc ot ol os oq], self as [h p u pw tls].
  cbn [on_connect on_starttls on_login on_send_message on_quit].
  destruct oc, ot; destruct oq as [? ?|[?|?|?|? ?]];
    try match goal with
        | |- context [?code =? 221] => destruct (Z.eqb_spec code 221)
        end;
    cbn.
  all: repeat split; try (eexists; reflexivity); try reflexivity.
  all: intros; first [reflexivity | discriminate | congruence].
Qed.

End LegacyConnection.

Section MailService.
Import SmtpConnection SmtpConnectionMore.

Variable server : Server.
Variable str_exn : SmtpConnection.exn -> string.
Variable render_email_template :
  string -> Py.dict (option string) -> EmailService.exn + string.
Variable server_base_url : string.

(** A call into the client keeps the client's trace. *)
Lemma call_trace {A} (m : SmtpConnection.M A) w :
  snd (EmailService.call m w) = snd (m w).
Proof.
  unfold EmailService.call. destruct (m w) as [[e|a] w']; reflexivity.
Qed.

Lemma call_error {A} (m : SmtpConnection.M A) w e :
  fst (EmailService.call m w) = inl e ->
  exists t, e = EmailService.TransportError t.
Proof.
  unfold EmailService.call. destruct (m w) as [[e'|a] w']; cbn.
  - intros E. injection E as <-. eexists. reflexivity.
  - discriminate.
Qed.

(** The types [send_user_email] knows. *)
Lemma known_types email_type :
  Py.mem email_type EmailService.subject_map = true <->
  In email_type
     ["email_verification"; "verification_email"; "password_reset";
      "account_locked"].
Proof. apply mem_In. Qed.

(** X13.  [send_user_email] refuses every type outside its four subjects
    with [ValueError], before the template or the transport are touched. *)
Theorem unknown_email_type_is_refused_before_anything_happens
    self user_data email_type w :
  ~ In email_type
       ["email_verification"; "verification_email"; "password_reset";
        "account_locked"] ->
  EmailService.send_user_email server str_exn render_email_template
    self user_data email_type w
  = (inl (EmailService.ValueError ("Invalid email type: " ++ email_type)), w).
Proof.
  intros H. unfold EmailService.send_user_email.
  destruct (Py.mem email_type EmailService.subject_map) eqn:M.
  - apply known_types in M. contradiction.
  - reflexivity.
Qed.

(** X14.  For a known type, [send_user_email] passes the rendered template
    as [content] and the user's address as [html_content], and no recipient:
    a message that reaches the transport has no [To], carries the subject of
    the type, and its body is the address itself when the address is a
    non-empty string (the rendered template otherwise). *)
Theorem send_user_email_passes_the_address_as_html
    self user_data email_type html address m :
  In email_type
     ["email_verification"; "verification_email"; "password_reset";
      "account_locked"] ->
  render_email_template email_type user_data = inr html ->
  Py.get "email" user_data = Some address ->
  In (SendMessage m)
     (trace (snd (EmailService.send_user_email server str_exn
                    render_email_template self user_data email_type idle))) ->
  msg_to m = None /\
  Py.get email_type EmailService.subject_map = Some (msg_subject m) /\
  ((exists a, address = Some a /\ a <> "" /\ msg_payload m = [a]) \/
   ((address = None \/ address = Some "") /\ msg_payload m = [html])).
Proof.
  intros T R A. unfold EmailService.send_user_email.
  apply known_types in T. rewrite T. cbn [negb].
  unfold EmailService.bind at 1, EmailService.pure. rewrite R.
  unfold EmailService.getitem.
  unfold Py.mem in T.
  destruct (Py.get email_type EmailService.subject_map) as [subject|];
    [|discriminate].
  rewrite A. unfold EmailService.bind, EmailService.ret.
  intros H.
  match type of H with
  | In _ (trace (snd (EmailService.call ?c ?w))) =>
      rewrite (call_trace c w) in H
  end.
  apply sent_message_shape in H as (body & B & ->). cbn.
  split; [reflexivity|]. split; [reflexivity|].
  apply py_or_cases in B. destruct B as [[B N]|[B C]].
  - left. eauto.
  - right. injection C as <-. auto.
Qed.

(** X15.  When the template renders, [send_verification_email] (which
    builds the link [<base>verify-email/<id>/<token>] for it) can only fail
    in the transport, and any message it sends has the subject
    [Verify Your Account]. *)
Theorem verification_mail_fails_only_in_transport
    self (user : EmailService.User) html :
  render_email_template "email_verification"
    [ ("name", EmailService.first_name user);
      ("verification_url",
       Some (server_base_url ++ "verify-email/"
             ++ LinkGeneration.uuid_str (EmailService.id user) ++ "/"
             ++ str_opt (EmailService.verification_token user)));
      ("email", Some (EmailService.email user)) ] = inr html ->
  let run := EmailService.send_verification_email server str_exn
               render_email_template server_base_url self user idle in
  (forall e, fst run = inl e -> exists t, e = EmailService.TransportError t) /\
  (forall m, In (SendMessage m) (trace (snd run)) ->
     msg_subject m = "Verify Your Account").
Proof.
  intros R. cbv zeta.
  unfold EmailService.send_verification_email, EmailService.send_user_email.
  change (Py.mem "email_verification" EmailService.subject_map) with true.
  cbn [negb].
  unfold EmailService.bind at 1, EmailService.pure. rewrite R.
  unfold EmailService.getitem.
  change (Py.get "email_verification" EmailService.subject_map)
    with (Some "Verify Your Account").
  match goal with
  | |- context [Py.get "email" ?d] =>
      change (Py.get "email" d) with (Some (Some (EmailService.email user)))
  end.
  unfold EmailService.bind, EmailService.ret.
  split.
  - intros e. apply call_error.
  - intros m H.
    match type of H with
    | In _ (trace (snd (EmailService.call ?c ?w))) =>
        rewrite (call_trace c w) in H
    end.
    apply sent_message_shape in H as (body & B & ->). reflexivity.
Qed.

End MailService.

Section HandlerErrors.
Import UserRoutes UserRoutesMore.

Context {Request EmailService Session : Type}.
Variable user_service : UserService Session EmailService.
Variable user_service_more : UserServiceMore.Ops Session.
Variable str_exn : exn -> string.
Variable access_token_expire_minutes now : Z.
Variable sign : Py.dict Py.value -> string.

(** A [try] whose only handler raises a 500 can raise nothing else. *)
Lemma wrapped_in_500 {A} (body : M Session A) s e s' :
  try_except body
    (fun e => raise (HTTPException HTTP_500_INTERNAL_SERVER_ERROR (str_exn e)))
    s = (inl e, s') ->
  exists cause,
    body s = (inl cause, s') /\ e = HTTPException 500 (str_exn cause).
Proof.
  unfold try_except, raise. destruct (body s) as [[c|a] s1]; intros E.
  - injection E as <- <-. eauto.
  - discriminate E.
Qed.

(** X16.  [register] and [create_user] answer every failure with status
    500: the 400s they raise themselves for a duplicate are caught by their
    own [except Exception] like anything else. *)
Theorem sign_up_failures_are_all_500
    (user_data : UserCreate) (request : Request) (email_service : EmailService)
    s e s' :
  (register user_service str_exn user_data request email_service s
     = (inl e, s') ->
   exists detail, e = HTTPException 500 detail) /\
  (UserRoutesMore.create_user user_service str_exn user_data request
     email_service s = (inl e, s') ->
   exists detail, e = HTTPException 500 detail).
Proof.
  split; intros H; apply wrapped_in_500 in H as (cause & _ & ->); eauto.
Qed.

(** X17.  [login] raises nothing but [HTTPException]s, and turns an
    unexpected exception of the user service, at the lock check or at the
    credentials, into a 500 whose detail is a fixed text saying nothing of
    the cause. *)
Theorem login_raises_http_errors_only form_data s :
  (forall e s',
      login user_service access_token_expire_minutes now sign form_data s
        = (inl e, s') ->
      exists status detail, e = HTTPException status detail) /\
  (forall what s1,
      is_account_locked user_service (username form_data) s
        = (inl (Exception what), s1) ->
      login user_service access_token_expire_minutes now sign form_data s
      = (inl (HTTPException 500
                "An unexpected error occurred during authentication. Please try again later."),
         s1)) /\
  (forall what s1 s2,
      is_account_locked user_service (username form_data) s
        = (inr false, s1) ->
      login_user user_service (username form_data) (password form_data) s1
        = (inl (Exception what), s2) ->
      login user_service access_token_expire_minutes now sign form_data s
      = (inl (HTTPException 500
                "An unexpected error occurred during authentication. Please try again later."),
         s2)).
Proof.
  unfold login, try_except, login_body, bind, raise, ret.
  repeat split.
  - intros e s'.
    destruct (is_account_locked user_service (username form_data) s)
      as [[[c d|w]|[|]] s1];
      try (intros E; injection E as <- <-; eauto; fail).
    destruct (login_user user_service (username form_data)
                (password form_data) s1) as [[[c d|w]|[u|]] s2];
      try (intros E; injection E as <- <-; eauto; fail).
    discriminate.
  - intros what s1 H. rewrite H. reflexivity.
  - intros what s1 s2 H1 H2. rewrite H1, H2. reflexivity.
Qed.

(** X18.  Once the email or, failing that, the nickname is found taken,
    [register] does not depend on the [create] operation at all: with any
    other [create] the outcome and the session are the same, a 500. *)
Theorem register_creates_nothing_on_a_conflict
    (user_data : UserCreate) (request : Request) (email_service : EmailService)
    create' s :
  (exists found s1,
      get_by_email user_service (uc_email user_data) s
        = (inr (Some found), s1)) \/
  (exists found s1 s2,
      get_by_email user_service (uc_email user_data) s = (inr None, s1) /\
      get_by_nickname user_service (uc_nickname user_data) s1
        = (inr (Some found), s2)) ->
  register (with_create user_service create') str_exn user_data request
    email_service s
  = register user_service str_exn user_data request email_service s
  /\
  exists detail s',
    register user_service str_exn user_data request email_service s
    = (inl (HTTPException 500 detail), s').
Proof.
  unfold register, try_except, register_body, bind, raise, ret, truthy.
  cbn [with_create get_by_email get_by_nickname create].
  intros [(found & s1 & H)|(found & s1 & s2 & H1 & H2)].
  - rewrite H. split; [reflexivity | eauto].
  - rewrite H1, H2. split; [reflexivity | eauto].
Qed.

End HandlerErrors.

Section ListingAndOwnership.
Import UserRoutes LinkGenerationMore.

Context {Request Session : Type}.
Variable user_service_more : UserServiceMore.Ops Session.
Variable str_exn : exn -> string.
Variable model_validate : User -> exn + UserResponse.

(** A comprehension returns when every element validates, and then gives
    one response per user, in order. *)
Lemma comprehension_returns (us : list User) (s : Session) rs s' :
  UserRoutesMore.comprehension model_validate us s = (inr rs, s') ->
  s' = s /\ Forall2 (fun u r => model_validate u = inr r) us rs.
Proof.
  revert rs. induction us as [|u us IH]; intros rs; cbn.
  - unfold ret. intros E. injection E as <- <-. auto.
  - destruct (model_validate u) as [e|r] eqn:V; [discriminate|].
    unfold bind, ret.
    destruct (UserRoutesMore.comprehension model_validate us s)
      as [[e|rs'] s1] eqn:C; [discriminate|].
    intros E. injection E as <- <-.
    destruct (IH rs' eq_refl) as [-> F]. auto.
Qed.

(** What a listing that returns is made of. *)
Lemma list_users_returns (request : Request) skip limit s resp s' :
  UserRoutesMore.list_users user_service_more model_validate request
    skip limit s = (inr resp, s') ->
  exists n s1 us,
    UserServiceMore.count user_service_more s = (inr n, s1) /\
    UserServiceMore.list_users user_service_more skip limit s1
      = (inr us, s') /\
    Forall2 (fun u r => model_validate u = inr r) us
      (UserRoutesMore.items resp) /\
    limit <> 0 /\
    UserRoutesMore.total resp = n /\
    UserRoutesMore.page resp = skip / limit + 1 /\
    UserRoutesMore.size resp = Z.of_nat (List.length us) /\
    LinkGeneration.generate_pagination_links request skip limit n None
      = inr (UserRoutesMore.links resp).
Proof.
  unfold UserRoutesMore.list_users, bind.
  destruct (UserServiceMore.count user_service_more s) as [[e|n] s1];
    [discriminate|].
  destruct (UserServiceMore.list_users user_service_more skip limit s1)
    as [[e|us] s2] eqn:L; [discriminate|].
  destruct (UserRoutesMore.comprehension model_validate us s2)
    as [[e|rs] s3] eqn:C; [discriminate|].
  apply comprehension_returns in C as [-> F].
  destruct (LinkGeneration.generate_pagination_links request skip limit n None)
    as [e|links] eqn:G; cbn [UserRoutesMore.pure]; unfold raise, ret;
    [discriminate|].
  pose proof (returns_nonzero_limit _ _ _ _ _ _ G) as Hl.
  rewrite floordiv_nonzero by assumption. cbn [UserRoutesMore.pure].
  unfold ret. intros E. injection E as <- <-. cbn.
  exists n, s1, us.
  split; [reflexivity|]. split; [exact L|]. split; [exact F|].
  split; [exact Hl|]. split; [reflexivity|]. split; [reflexivity|].
  split; [|exact G].
  f_equal. symmetry. exact (Forall2_length F).
Qed.

(** X19.  In a listing that returns, [size] is the number of items, and
    every link, [self] included, has exactly the parameters [skip] and
    [limit], with the requested limit; [self] has the requested skip. *)
Theorem listing_links_carry_only_skip_and_limit
    (request : Request) skip limit s resp s' :
  UserRoutesMore.list_users user_service_more model_validate request
    skip limit s = (inr resp, s') ->
  UserRoutesMore.size resp
    = Z.of_nat (List.length (UserRoutesMore.items resp)) /\
  (forall k l, Py.get k (UserRoutesMore.links resp) = Some l ->
      Url.param_names (LinkGeneration.href l) = ["skip"; "limit"] /\
      Url.param "limit" (LinkGeneration.href l)
        = Some (Py.str_of_int limit)) /\
  (exists self,
      Py.get "self" (UserRoutesMore.links resp) = Some self /\
      Url.param "skip" (LinkGeneration.href self)
        = Some (Py.str_of_int skip)).
Proof.
  intros H.
  apply list_users_returns in H
    as (n & s1 & us & _ & _ & F & Hl & _ & _ & Sz & G).
  split; [rewrite Sz; f_equal; exact (Forall2_length F)|].
  rewrite pagination_links_explicit in G by assumption. injection G as <-.
  assert (R : forall n0,
    Url.param_names ("http://testserver/users" ++ "?skip="
                     ++ Py.str_of_int n0 ++ "&limit=" ++ Py.str_of_int limit)
      = ["skip"; "limit"] /\
    Url.param "skip" ("http://testserver/users" ++ "?skip="
                      ++ Py.str_of_int n0 ++ "&limit=" ++ Py.str_of_int limit)
      = Some (Py.str_of_int n0) /\
    Url.param "limit" ("http://testserver/users" ++ "?skip="
                       ++ Py.str_of_int n0 ++ "&limit=" ++ Py.str_of_int limit)
      = Some (Py.str_of_int limit)).
  { intros n0. apply read_skip_limit;
      [reflexivity | apply occurs_str_of_int; reflexivity ..]. }
  split.
  - intros k l. cbn [Py.get LinkGeneration.link fst snd].
    destruct (String.eqb k "self");
      [intros E; injection E as <-; split; apply (R skip)|].
    unfold users_link at 1 2. cbn [LinkGeneration.link fst snd].
    destruct (String.eqb k "first");
      [intros E; injection E as <-; split; apply (R 0)|].
    destruct (String.eqb k "last");
      [intros E; injection E as <-; split; apply R|].
    destruct (skip + limit <? n); destruct (0 <? skip);
      cbn [List.app Py.get users_link LinkGeneration.link fst snd];
      repeat (match goal with
              | |- context [String.eqb k ?x] =>
                  destruct (String.eqb k x);
                  [intros E; injection E as <-; split; apply R|]
              end);
      discriminate.
  - eexists. split; [reflexivity|]. apply (R skip).
Qed.

(** X20.  With [limit = 0] the listing raises [ZeroDivisionError], and it
    does so only after counting and querying the users. *)
Theorem listing_with_zero_limit_fails_after_the_queries
    (request : Request) skip s n s1 us s2 rs :
  UserServiceMore.count user_service_more s = (inr n, s1) ->
  UserServiceMore.list_users user_service_more skip 0 s1 = (inr us, s2) ->
  Forall2 (fun u r => model_validate u = inr r) us rs ->
  UserRoutesMore.list_users user_service_more model_validate request
    skip 0 s
  = (inl (Exception "ZeroDivisionError"), s2).
Proof.
  intros C L F. unfold UserRoutesMore.list_users, bind. rewrite C, L.
  assert (V : UserRoutesMore.comprehension model_validate us s2
              = (inr rs, s2)).
  { clear L. induction F as [|u r us rs V F IH]; cbn; [reflexivity|].
    rewrite V. unfold bind. rewrite IH. reflexivity. }
  rewrite V. reflexivity.
Qed.

(** X21.  In a listing on a page boundary (with [limit > 0]), the page
    number is at least 1 and [skip = (page - 1) * limit]; there is a [prev]
    link exactly when [page > 1], and a [next] link exactly when
    [page * limit < total]. *)
Theorem page_number_agrees_with_prev_and_next
    (request : Request) skip limit s resp s' :
  0 < limit -> 0 <= skip -> skip mod limit = 0 ->
  UserRoutesMore.list_users user_service_more model_validate request
    skip limit s = (inr resp, s') ->
  1 <= UserRoutesMore.page resp /\
  skip = (UserRoutesMore.page resp - 1) * limit /\
  (Py.mem "prev" (UserRoutesMore.links resp) = true
   <-> 1 < UserRoutesMore.page resp) /\
  (Py.mem "next" (UserRoutesMore.links resp) = true
   <-> UserRoutesMore.page resp * limit < UserRoutesMore.total resp).
Proof.
  intros Hl Hs Ha H.
  apply list_users_returns in H
    as (n & s1 & us & _ & _ & _ & _ & T & P & _ & G).
  rewrite P, T.
  pose proof (Z.div_mod skip limit ltac:(lia)) as D. rewrite Ha in D.
  assert (0 <= skip / limit) by (apply Z.div_pos; lia).
  rewrite pagination_links_explicit in G by lia. injection G as <-.
  unfold Py.mem.
  split; [lia|]. split; [nia|].
  destruct (Z.ltb_spec (skip + limit) n); destruct (Z.ltb_spec 0 skip);
    cbn; split; split; intros; try congruence; try nia.
Qed.

(** X22.  The three profile-update handlers answer 403 to a requester
    whose identifier, written as a string, differs from the target's, and
    leave the session as it was: the user service is not called.  For the
    handler that receives a [User], ids in the 128-bit range differ as strings
    whenever they differ. *)
Theorem only_the_owner_reaches_the_profile_updates
    (user_id : LinkGeneration.UUID) (current_user : Py.dict Py.value)
    (requester : User) requester_key picture data info s :
  Py.get "user_id" current_user = Some requester_key ->
  Py.str requester_key <> LinkGeneration.uuid_str user_id ->
  0 <= LinkGeneration.uuid_int user_id < 2 ^ 128 ->
  0 <= LinkGeneration.uuid_int (id requester) < 2 ^ 128 ->
  id requester <> user_id ->
  UserRoutesMore.update_profile_picture user_service_more user_id picture
    current_user s
  = (inl (HTTPException 403 "Not authorized to update this profile"), s) /\
  UserRoutesMore.update_professional_info user_service_more user_id data
    current_user s
  = (inl (HTTPException 403 "Not authorized to update this profile"), s) /\
  UserRoutesMore.update_user_professional_info user_service_more user_id info
    requester s
  = (inl (HTTPException 403 "Not authorized to update this user"), s).
Proof.
  intros K D Ru Rr N.
  unfold UserRoutesMore.update_profile_picture,
    UserRoutesMore.update_professional_info,
    UserRoutesMore.update_user_professional_info,
    UserRoutesMore.requester_id, UserRoutesMore.str_differs, bind, ret, raise.
  rewrite K.
  destruct (String.eqb_spec (Py.str requester_key)
              (LinkGeneration.uuid_str user_id)); [contradiction|].
  destruct (String.eqb_spec (LinkGeneration.uuid_str (id requester))
              (LinkGeneration.uuid_str user_id)) as [E|_].
  - apply uuid_str_inj in E; [contradiction | assumption ..].
  - cbn [negb]. repeat split.
Qed.

(** X23.  Both verification endpoints return their success message only
    when the user service returned [True]; the token-only endpoint answers
    400 both when the service returns [False] and when it raises
    [ValueError]. *)
Theorem verification_succeeds_only_if_the_service_says_so
    (user_id : LinkGeneration.UUID) token s msg s' :
  (UserRoutesMore.verify_email user_service_more user_id token s
     = (inr msg, s') ->
   UserServiceMore.verify_email_with_token user_service_more user_id token s
     = (inr true, s')) /\
  (UserRoutesMore.verify_email_by_token user_service_more str_exn token s
     = (inr msg, s') ->
   UserServiceMore.verify_email user_service_more token s = (inr true, s')) /\
  (forall s1,
      UserServiceMore.verify_email user_service_more token s
        = (inl (Exception "ValueError"), s1) ->
      UserRoutesMore.verify_email_by_token user_service_more str_exn token s
      = (inl (HTTPException 400 (str_exn (Exception "ValueError"))), s1)) /\
  (forall s1,
      UserServiceMore.verify_email user_service_more token s
        = (inr false, s1) ->
      UserRoutesMore.verify_email_by_token user_service_more str_exn token s
      = (inl (HTTPException 400 "Invalid verification token"), s1)).
Proof.
  unfold UserRoutesMore.verify_email, UserRoutesMore.verify_email_by_token,
    try_except, bind, ret, raise.
  repeat split.
  - destruct (UserServiceMore.verify_email_with_token user_service_more
                user_id token s) as [[e|[|]] s1]; try discriminate.
    intros E. injection E as _ <-. reflexivity.
  - destruct (UserServiceMore.verify_email user_service_more token s)
      as [[[c d|w]|[|]] s1]; try discriminate.
    + destruct (String.eqb w "ValueError"); discriminate.
    + intros E. injection E as _ <-. reflexivity.
  - intros s1 H. rewrite H. reflexivity.
  - intros s1 H. rewrite H. reflexivity.
Qed.

End ListingAndOwnership.

(** ** The properties above on concrete requests *)

Section MoreLinkRuns.
Import LinkGeneration.

Lemma last_page_of_25_holds_the_final_item :
  exists links last offset,
    generate_pagination_links tt 0 10 25 None = inr links /\
    Py.get "last" links = Some last /\
    Url.param "skip" (href last) = Some (Py.str_of_int offset) /\
    offset mod 10 = 0 /\
    0 <= offset < 25 /\
    25 <= offset + 10.
Proof.
  apply (last_page_holds_the_final_item tt 0 10 25 None); lia.
Defined.


Lemma second_page_of_25_is_before_the_last :
  exists links,
    generate_pagination_links tt 10 10 25 None = inr links /\
    (Py.mem "next" links = true
     <-> 10 < Z.max 0 ((25 - 1) / 10 * 10)).
Proof.
  apply (aligned_page_has_next_iff_before_last tt 10 10 25 None);
    [lia | lia | reflexivity].
Defined.

Lemma a_skip_filter_replaces_the_skip :
  exists links,
    generate_pagination_links tt 0 10 25
      (Some [("skip", Py.Int 7); ("role", Py.Str "ADMIN")]) = inr links /\
    exists self,
      Py.get "self" links = Some self /\
      href self = "http://testserver/users?skip=7&limit=10&role=ADMIN" /\
      Py.get "skip"
        (query_params 0 10 (Some [("skip", Py.Int 7); ("role", Py.Str "ADMIN")]))
      = Some (Py.Int 7).
Proof.
  eexists. split; [reflexivity|].
  destruct (filter_named_like_a_page_parameter_wins tt 0 10 25
              [("skip", Py.Int 7); ("role", Py.Str "ADMIN")] _
              ltac:(discriminate)
              ltac:(repeat constructor; simpl; intuition discriminate)
              eq_refl)
    as (self & S & _ & F & _).
  exists self. split; [exact S|]. split.
  - cbn in S. injection S as <-. reflexivity.
  - apply F. reflexivity.
Defined.

Lemma the_next_link_is_a_pagination_link :
  exists n pl,
    create_pagination_link "next" "http://testserver/users"
      [("skip", Py.Int n); ("limit", Py.Int 10)] = inr pl /\
    plink_rel pl = "next" /\
    plink_href pl = "http://testserver/users?skip=10&limit=10".
Proof.
  apply (page_links_are_pagination_links tt 0 10 25 None _ eq_refl "next"
           {| rel := "next";
              href := "http://testserver/users?skip=10&limit=10" |});
    [discriminate | reflexivity].
Defined.


Lemma same_link_same_user :
  {| uuid_int := 7 |} = {| uuid_int := 7 |}.
Proof.
  apply (user_links_tell_users_apart
           {| uuid_int := 7 |} {| uuid_int := 7 |} tt tt
           {| rel := "self";
              href := "http://testserver/users/00000000-0000-0000-0000-000000000007" |}
           {| rel := "self";
              href := "http://testserver/users/00000000-0000-0000-0000-000000000007" |});
    first [reflexivity | split; [simpl; lia | reflexivity]].
Defined.

End MoreLinkRuns.

Section MoreMailRuns.
Import SmtpConnection SmtpConnectionMore.

Lemma the_html_is_what_gets_sent :
  exists body,
    {| msg_subject := "Verify Your Account"; msg_from := "user";
       msg_to := Some "bob@example.com"; msg_payload := ["<p>Hello</p>"] |}
    = {| msg_subject := "Verify Your Account";
         msg_from := smtp_user example_client;
         msg_to := Some "bob@example.com";
         msg_payload := [body] |} /\
    ((Some "<p>Hello</p>" = Some body /\ body <> "") \/
     ((Some "<p>Hello</p>" = None \/ Some "<p>Hello</p>" = Some "") /\
      Some "plain" = Some body)).
Proof.
  apply (only_the_html_or_else_the_content_is_sent exn_text healthy
           example_client "Verify Your Account" (Some "plain")
           (Some "<p>Hello</p>") (Some "bob@example.com")).
  simpl. do 3 right. left. reflexivity.
Defined.

Lemma a_newsletter_is_refused :
  EmailService.send_user_email healthy exn_text EmailService.plain_template
    EmailService.init [("email", Some "bob@example.com")] "newsletter" idle
  = (inl (EmailService.ValueError "Invalid email type: newsletter"), idle).
Proof.
  apply (unknown_email_type_is_refused_before_anything_happens healthy
           exn_text EmailService.plain_template EmailService.init
           [("email", Some "bob@example.com")] "newsletter" idle).
  simpl. intuition discriminate.
Defined.

Lemma a_password_reset_mail_has_the_address_as_body :
  msg_to {| msg_subject := "Password Reset Instructions"; msg_from := "user";
            msg_to := None; msg_payload := ["bob@example.com"] |} = None /\
  Py.get "password_reset" EmailService.subject_map
    = Some "Password Reset Instructions" /\
  ((exists a, Some "bob@example.com" = Some a /\ a <> "" /\
              ["bob@example.com"] = [a]) \/
   ((Some "bob@example.com" = None \/ Some "bob@example.com" = Some "") /\
    ["bob@example.com"] = ["<p>password_reset</p>"])).
Proof.
  apply (send_user_email_passes_the_address_as_html healthy exn_text
           EmailService.plain_template EmailService.init
           [("email", Some "bob@example.com")] "password_reset"
           "<p>password_reset</p>" (Some "bob@example.com")
           {| msg_subject := "Password Reset Instructions";
              msg_from := "user"; msg_to := None;
              msg_payload := ["bob@example.com"] |}).
  - simpl. tauto.
  - reflexivity.
  - reflexivity.
  - simpl. do 3 right. left. reflexivity.
Defined.

Lemma the_verification_mail_to_bob :
  (forall e,
      fst (EmailService.send_verification_email healthy exn_text
             EmailService.plain_template "http://localhost/"
             EmailService.init EmailService.bob idle) = inl e ->
      exists t, e = EmailService.TransportError t) /\
  (forall m,
      In (SendMessage m)
         (trace (snd (EmailService.send_verification_email healthy exn_text
                        EmailService.plain_template "http://localhost/"
                        EmailService.init EmailService.bob idle))) ->
      msg_subject m = "Verify Your Account").
Proof.
  apply (verification_mail_fails_only_in_transport healthy exn_text
           EmailService.plain_template "http://localhost/"
           EmailService.init EmailService.bob "<p>email_verification</p>").
  reflexivity.
Defined.

End MoreMailRuns.

Section MoreHandlerRuns.
Import UserRoutes UserRoutesMore.

Lemma the_second_sign_up_is_a_500 :
  exists detail,
    HTTPException 500 "400: Email already registered"
    = HTTPException 500 detail.
Proof.
  apply (proj1 (sign_up_failures_are_all_500 (Request := unit)
                  memory_service starlette_str second_signup tt tt
                  store_with_alice
                  (HTTPException 500 "400: Email already registered")
                  store_with_alice)).
  reflexivity.
Defined.

Lemma a_wrong_password_is_an_http_error :
  exists status detail,
    HTTPException 401 "Incorrect email or password"
    = HTTPException status detail.
Proof.
  apply (proj1 (login_raises_http_errors_only memory_service 30 1000 toy_sign
                  bad_form store_with_alice)
               (HTTPException 401 "Incorrect email or password")
               store_with_alice).
  reflexivity.
Defined.

Lemma the_second_sign_up_never_creates :
  register (Request := unit)
    (with_create memory_service (fun _ _ s => (inr None, s)))
    starlette_str second_signup tt tt store_with_alice
  = register memory_service starlette_str second_signup tt tt store_with_alice
  /\
  exists detail s',
    register (Request := unit) memory_service starlette_str second_signup tt
      tt store_with_alice
    = (inl (HTTPException 500 detail), s').
Proof.
  apply (register_creates_nothing_on_a_conflict (Request := unit)
           memory_service starlette_str second_signup tt tt
           (fun _ _ s => (inr None, s)) store_with_alice).
  left. exists alice, store_with_alice. reflexivity.
Defined.

Lemma the_listing_of_one_user :
  exists resp,
    list_users (Request := unit) memory_service_more validate_plain tt 0 10
      store_with_alice = (inr resp, store_with_alice) /\
    size resp = Z.of_nat (List.length (items resp)) /\
    (forall k l, Py.get k (links resp) = Some l ->
        Url.param_names (LinkGeneration.href l) = ["skip"; "limit"] /\
        Url.param "limit" (LinkGeneration.href l) = Some (Py.str_of_int 10)) /\
    (exists self,
        Py.get "self" (links resp) = Some self /\
        Url.param "skip" (LinkGeneration.href self) = Some (Py.str_of_int 0)).
Proof.
  eexists. split; [reflexivity|].
  apply (listing_links_carry_only_skip_and_limit (Request := unit)
           memory_service_more validate_plain tt 0 10 store_with_alice _
           store_with_alice).
  reflexivity.
Defined.

Lemma a_listing_with_zero_limit :
  list_users (Request := unit) memory_service_more validate_plain tt 0 0
    store_with_alice
  = (inl (Exception "ZeroDivisionError"), store_with_alice).
Proof.
  apply (listing_with_zero_limit_fails_after_the_queries (Request := unit)
           memory_service_more validate_plain tt 0 store_with_alice
           1 store_with_alice [] store_with_alice []).
  - reflexivity.
  - reflexivity.
  - constructor.
Defined.

Lemma the_first_page_of_one_user :
  exists resp,
    list_users (Request := unit) memory_service_more validate_plain tt 0 10
      store_with_alice = (inr resp, store_with_alice) /\
    1 <= page resp /\
    0 = (page resp - 1) * 10 /\
    (Py.mem "prev" (links resp) = true <-> 1 < page resp) /\
    (Py.mem "next" (links resp) = true <-> page resp * 10 < total resp).
Proof.
  eexists. split; [reflexivity|].
  apply (page_number_agrees_with_prev_and_next (Request := unit)
           memory_service_more validate_plain tt 0 10 store_with_alice _
           store_with_alice); [lia | lia | reflexivity | reflexivity].
Defined.

Lemma mallory_cannot_update_alice :
  update_profile_picture memory_service_more (id alice) "http://x/p.png"
    mallory_identity store_with_alice
  = (inl (HTTPException 403 "Not authorized to update this profile"),
     store_with_alice) /\
  update_professional_info memory_service_more (id alice) [] mallory_identity
    store_with_alice
  = (inl (HTTPException 403 "Not authorized to update this profile"),
     store_with_alice) /\
  update_user_professional_info memory_service_more (id alice) [] mallory
    store_with_alice
  = (inl (HTTPException 403 "Not authorized to update this user"),
     store_with_alice).
Proof.
  apply (only_the_owner_reaches_the_profile_updates memory_service_more
           (id alice) mallory_identity mallory
           (Py.Str "00000000-0000-0000-0000-00000000002a")).
  - reflexivity.
  - intros E. vm_compute in E. discriminate E.
  - split; [simpl; lia | reflexivity].
  - split; [simpl; lia | reflexivity].
  - discriminate.
Defined.

Lemma a_valid_token_verifies :
  UserServiceMore.verify_email memory_service_more "valid" store_with_alice
  = (inr true, store_with_alice).
Proof.
  apply (proj1 (proj2 (verification_succeeds_only_if_the_service_says_so
                         memory_service_more starlette_str (id alice) "valid"
                         store_with_alice "Email verified successfully"
                         store_with_alice))).
  reflexivity.
Defined.

End MoreHandlerRuns.
